(** * Job queue and GPU fleet orchestrator: a shallow embedding

    The development follows three source files of the backend:

    - [app/routers/workers.py]: the worker-facing endpoints
      ([claim_job], [mark_done], [mark_fail], [claim_dryrun],
      [job_heartbeat]);
    - [app/services/job_orchestration.py]: [JobOrchestrationService]
      ([claim_job], [update_job_status], [_is_valid_status_transition],
      [requeue_stuck_jobs]);
    - [app/services/vast_service.py]: the fleet controller
      ([ensure_gpu_instance], [maybe_shutdown_gpu], ...).

    The [jobs] table is a finite map from the primary key to the row.
    Every endpoint is a function from the table (and the request) to a
    response and the table after the commit; the service's [claim_job],
    which does not commit, is a function on a session, the committed
    table together with the table the session sees.  Timestamps are
    integers (seconds); the clock reading of a request is an argument
    [now]. *)

From Stdlib Require Import ZArith String Ascii List Bool Lia.
From stdpp Require Import base option list gmap strings pretty.

Local Open Scope Z_scope.

(** ** The job row *)

Module Model.

(** Modelled from the spec: the enumeration [JobStatus] is declared in
    [app/models/job.py], which is not among the sources.  Its members
    are the five states of the data model ([queued | running | completed
    | failed | cancelled]), under the names the code uses for them. *)
Inductive JobStatus : Type :=
  | QUEUED
  | RUNNING
  | COMPLETED
  | FAILED
  | CANCELLED.

Global Instance JobStatus_eq_dec : EqDecision JobStatus.
Proof. solve_decision. Defined.

(** A JSON object ([Dict[str, Any]]) with opaque values. *)
Abbreviation Json := (gmap string string).

(** The mapped class [Job], also of [app/models/job.py]: the columns of
    the table [jobs] as the migration f3a80389152c creates them, and
    [target], which the router consults only when the mapped class has
    such an attribute.  [kind] holds the value of a [JobKind], an
    enumeration of the same file, whose members are a parameter
    ([all_kinds]) where the code lists them. *)
Record Job : Type := mkJob {
  user_id : Z;
  kind : string;
  payload_json : Json;
  status : JobStatus;
  result_json : option Json;
  error_message : option string;
  priority : Z;
  reserved_by : option string;
  reserved_at : option Z;
  retries : Z;
  created_at : Z;
  updated_at : Z;
  started_at : option Z;
  completed_at : option Z;
  target : option string
}.

Global Instance Job_eq_dec : EqDecision Job.
Proof. solve_decision. Defined.

(** Attribute assignments [job.f = v]. *)
Definition set_status (v : JobStatus) (j : Job) : Job :=
  mkJob (user_id j) (kind j) (payload_json j) v (result_json j)
        (error_message j) (priority j) (reserved_by j) (reserved_at j)
        (retries j) (created_at j) (updated_at j) (started_at j)
        (completed_at j) (target j).

Definition set_result_json (v : option Json) (j : Job) : Job :=
  mkJob (user_id j) (kind j) (payload_json j) (status j) v
        (error_message j) (priority j) (reserved_by j) (reserved_at j)
        (retries j) (created_at j) (updated_at j) (started_at j)
        (completed_at j) (target j).

Definition set_error_message (v : option string) (j : Job) : Job :=
  mkJob (user_id j) (kind j) (payload_json j) (status j) (result_json j)
        v (priority j) (reserved_by j) (reserved_at j)
        (retries j) (created_at j) (updated_at j) (started_at j)
        (completed_at j) (target j).

Definition set_reserved_by (v : option string) (j : Job) : Job :=
  mkJob (user_id j) (kind j) (payload_json j) (status j) (result_json j)
        (error_message j) (priority j) v (reserved_at j)
        (retries j) (created_at j) (updated_at j) (started_at j)
        (completed_at j) (target j).

Definition set_reserved_at (v : option Z) (j : Job) : Job :=
  mkJob (user_id j) (kind j) (payload_json j) (status j) (result_json j)
        (error_message j) (priority j) (reserved_by j) v
        (retries j) (created_at j) (updated_at j) (started_at j)
        (completed_at j) (target j).

Definition set_retries (v : Z) (j : Job) : Job :=
  mkJob (user_id j) (kind j) (payload_json j) (status j) (result_json j)
        (error_message j) (priority j) (reserved_by j) (reserved_at j)
        v (created_at j) (updated_at j) (started_at j)
        (completed_at j) (target j).

Definition set_updated_at (v : Z) (j : Job) : Job :=
  mkJob (user_id j) (kind j) (payload_json j) (status j) (result_json j)
        (error_message j) (priority j) (reserved_by j) (reserved_at j)
        (retries j) (created_at j) v (started_at j)
        (completed_at j) (target j).

Definition set_started_at (v : option Z) (j : Job) : Job :=
  mkJob (user_id j) (kind j) (payload_json j) (status j) (result_json j)
        (error_message j) (priority j) (reserved_by j) (reserved_at j)
        (retries j) (created_at j) (updated_at j) v
        (completed_at j) (target j).

Definition set_completed_at (v : option Z) (j : Job) : Job :=
  mkJob (user_id j) (kind j) (payload_json j) (status j) (result_json j)
        (error_message j) (priority j) (reserved_by j) (reserved_at j)
        (retries j) (created_at j) (updated_at j) (started_at j)
        v (target j).

(** The table, keyed by [id]. *)
Abbreviation Jobs := (gmap Z Job).

(** [a] sorts strictly before [b] under
    [ORDER BY priority DESC, created_at ASC]. *)
Definition sorts_before (a b : Job) : bool :=
  (priority b <? priority a)
  || ((priority a =? priority b) && (created_at a <? created_at b)).

(** [.first()] / [LIMIT 1] of an ordered query over [rows]: a row that no
    other row sorts strictly before.  Rows that compare equal are served
    in the order the storage engine scans them, here the order of
    [rows]. *)
Fixpoint first_row (rows : list (Z * Job)) : option (Z * Job) :=
  match rows with
  | [] => None
  | r :: rest =>
      match first_row rest with
      | Some b => if sorts_before (snd b) (snd r) then Some b else Some r
      | None => Some r
      end
  end.

(** Python truthiness of an optional dict and of an optional string. *)
Definition truthy_json (d : option Json) : bool :=
  match d with
  | Some data => negb (bool_decide (data = ∅))
  | None => false
  end.

Definition truthy_str (s : option string) : bool :=
  match s with
  | Some EmptyString | None => false
  | Some _ => true
  end.

End Model.

Export Model.

(** ** [app/routers/workers.py] *)

Module Workers.

(** What an endpoint answers. *)
Inductive Response : Type :=
  | JobBody (id : Z) (job : Job)        (* 200, the claimed row *)
  | Available (id : Z)                  (* 200, {"available": True, "id": id} *)
  | NoContent                           (* 204 *)
  | HTTPException (status_code : Z) (detail : string).

(** [.filter(getattr(Job, "target", None) == target
            if hasattr(Job, "target") else True)]:
    [has_target] says whether the mapped class declares the attribute.
    A NULL target compares unknown and the row is filtered out. *)
Definition target_filter (has_target : bool) (tgt : string) (j : Job) : bool :=
  if has_target then bool_decide (target j = Some tgt) else true.

(** The identity of the caller, [worker_data["worker_id"]]: what
    [get_worker_user] reads with [payload.get("worker_id")] in the
    verified token, [None] when the token carries no such entry. *)
Abbreviation Identity := (option string).

(** The [WHERE] clause of the two queries of the router. *)
Definition queued_for (has_target : bool) (tgt : string) (j : Job) : bool :=
  bool_decide (status j = QUEUED) && target_filter has_target tgt j.

(** [with_for_update(skip_locked=True)]: rows whose lock another
    transaction in flight holds ([locked]) are passed over. *)
Definition skip_locked (locked : gset Z) (r : Z * Job) : bool :=
  bool_decide (fst r ∉ locked).

Definition claim_query (has_target : bool) (locked : gset Z) (tgt : string)
    (db : Jobs) : option (Z * Job) :=
  first_row
    (List.filter (fun r => queued_for has_target tgt (snd r) && skip_locked locked r)
       (map_to_list db)).

Definition claim_job (has_target : bool) (locked : gset Z)
    (worker_id : Identity) (tgt : string) (now : Z) (db : Jobs)
    : Response * Jobs :=
  match claim_query has_target locked tgt db with
  | None => (NoContent, db)
  | Some (id, job) =>
      let job := set_status RUNNING job in
      let job := set_reserved_by worker_id job in
      let job := set_reserved_at (Some now) job in
      let job := set_started_at (Some now) job in
      (JobBody id job, <[id := job]> db)
  end.

Definition mark_done (job_id : Z) (body_result_json : Json)
    (worker_id : Identity) (now : Z) (db : Jobs) : Response * Jobs :=
  match db !! job_id with
  | None => (HTTPException 404 "Job not found", db)
  | Some job =>
      if bool_decide (reserved_by job ≠ worker_id)
      then (HTTPException 403 "Not your job", db)
      else
        let job := set_status COMPLETED job in
        let job := set_result_json (Some body_result_json) job in
        let job := set_error_message None job in
        let job := set_completed_at (Some now) job in
        (NoContent, <[job_id := job]> db)
  end.

Definition mark_fail (job_id : Z) (body_error_message : string)
    (worker_id : Identity) (now : Z) (db : Jobs) : Response * Jobs :=
  match db !! job_id with
  | None => (HTTPException 404 "Job not found", db)
  | Some job =>
      if bool_decide (reserved_by job ≠ worker_id)
      then (HTTPException 403 "Not your job", db)
      else
        let job := set_status FAILED job in
        let job := set_error_message (Some body_error_message) job in
        let job := set_completed_at (Some now) job in
        let job := set_retries (retries job + 1) job in
        (NoContent, <[job_id := job]> db)
  end.

(** The same query as [claim_job], without the row lock, and no write. *)
Definition claim_dryrun (has_target : bool) (tgt : string) (db : Jobs)
    : Response * Jobs :=
  match first_row
          (List.filter (fun r => queued_for has_target tgt (snd r))
             (map_to_list db)) with
  | Some (id, _) => (Available id, db)
  | None => (NoContent, db)
  end.

Definition job_heartbeat (job_id : Z) (worker_id : Identity) (now : Z)
    (db : Jobs) : Response * Jobs :=
  match db !! job_id with
  | None => (HTTPException 404 "Job not found", db)
  | Some job =>
      if bool_decide (reserved_by job ≠ worker_id)
      then (HTTPException 403 "Not your job", db)
      else (NoContent, <[job_id := set_updated_at now job]> db)
  end.

End Workers.

(** ** [app/services/job_orchestration.py] *)

Module JobOrchestrationService.

(** [job_kinds or [kind.value for kind in JobKind]]: an absent or empty
    list stands for every kind of the enumeration [all_kinds]. *)
Definition kinds_param (all_kinds : list string) (job_kinds : option (list string))
    : list string :=
  match job_kinds with
  | Some (k :: ks) => k :: ks
  | _ => all_kinds
  end.

(** [status = 'queued' AND (:job_kinds IS NULL OR kind = ANY(:job_kinds))] *)
Definition queued_of_kind (kinds : list string) (j : Job) : bool :=
  bool_decide (status j = QUEUED) && bool_decide (kind j ∈ kinds).

(** A database session: the table as committed, and the table as the
    session sees it, with the writes it has not committed. *)
Record Session : Type := mkSession {
  committed : Jobs;
  pending : Jobs
}.

(** [SessionLocal()], on a table with nothing in flight. *)
Definition open_session (db : Jobs) : Session := mkSession db db.

(** [self.db.rollback()] *)
Definition rollback (s : Session) : Session :=
  mkSession (committed s) (committed s).

(** [db.close()]: the table the next session finds; what was not
    committed is gone. *)
Definition close (s : Session) : Jobs := committed s.

(** The [UPDATE ... WHERE id = (SELECT ... FOR UPDATE SKIP LOCKED LIMIT 1)
    RETURNING *] statement, then the re-read of the row; there is no
    [commit].  [raised] says that the database raised in [execute]: the
    [except] branch logs the error, rolls back and returns [None]. *)
Definition claim_job (all_kinds : list string) (locked : gset Z)
    (worker_id : string) (job_kinds : option (list string)) (now : Z)
    (raised : bool) (s : Session) : option (Z * Job) * Session :=
  if raised then (None, rollback s)
  else
    match first_row
            (List.filter
               (fun r => queued_of_kind (kinds_param all_kinds job_kinds) (snd r)
                         && Workers.skip_locked locked r)
               (map_to_list (pending s))) with
    | Some (id, job) =>
        let job := set_status RUNNING job in
        let job := set_reserved_by (Some worker_id) job in
        let job := set_reserved_at (Some now) job in
        let job := set_started_at (Some now) job in
        let job := set_updated_at now job in
        (Some (id, job), mkSession (committed s) (<[id := job]> (pending s)))
    | None => (None, s)
    end.

Definition valid_transitions (current : JobStatus) : list JobStatus :=
  match current with
  | QUEUED => [RUNNING; CANCELLED]
  | RUNNING => [COMPLETED; FAILED; CANCELLED]
  | COMPLETED => []
  | FAILED => [QUEUED]
  | CANCELLED => []
  end.

Definition _is_valid_status_transition (current new : JobStatus) : bool :=
  bool_decide (new ∈ valid_transitions current).

(** The block under [# Update job]: the assignments between the two
    validations and the commit. *)
Definition update_job (new_status : JobStatus) (result_data : option Json)
    (error_message : option string) (now : Z) (job : Job) : Job :=
  let job := set_status new_status job in
  let job := set_updated_at now job in
  match new_status with
  | COMPLETED =>
      let job := set_completed_at (Some now) job in
      if truthy_json result_data
      then set_result_json result_data job else job
  | FAILED =>
      let job := set_completed_at (Some now) job in
      let job :=
        if truthy_str error_message
        then set_error_message error_message job else job in
      let job := set_retries (retries job + 1) job in
      if 3 <=? retries job
      then set_status FAILED job
      else
        let job := set_status QUEUED job in
        let job := set_reserved_by None job in
        set_reserved_at None job
  | _ => job
  end.

Definition update_job_status (job_id : Z) (new_status : JobStatus)
    (worker_id : string) (result_data : option Json)
    (error_message : option string) (now : Z) (db : Jobs) : bool * Jobs :=
  match db !! job_id with
  | None => (false, db)
  | Some job =>
      if bool_decide (reserved_by job ≠ Some worker_id) then (false, db)
      else if negb (_is_valid_status_transition (status job) new_status)
      then (false, db)
      else
        (true,
         <[job_id := update_job new_status result_data error_message now job]> db)
  end.

(** [timedelta(minutes=m)] in seconds. *)
Definition minutes (m : Z) : Z := 60 * m.

(** [Job.status == RUNNING, Job.reserved_at < timeout_threshold]; a NULL
    [reserved_at] does not satisfy the comparison. *)
Definition stuck (timeout_threshold : Z) (j : Job) : bool :=
  bool_decide (status j = RUNNING)
  && match reserved_at j with
     | Some t => t <? timeout_threshold
     | None => false
     end.

(** The body of the [for job in stuck_jobs] loop. *)
Definition recover (now : Z) (job : Job) : Job :=
  let job := set_status QUEUED job in
  let job := set_reserved_by None job in
  let job := set_reserved_at None job in
  let job := set_retries (retries job + 1) job in
  let job := set_updated_at now job in
  if 3 <=? retries job
  then
    let job := set_status FAILED job in
    let job := set_completed_at (Some now) job in
    set_error_message (Some "Job timed out after multiple retries") job
  else job.

Definition requeue_stuck_jobs (timeout_minutes : Z) (now : Z) (db : Jobs)
    : Z * Jobs :=
  let timeout_threshold := now - minutes timeout_minutes in
  let stuck_jobs :=
    List.filter (fun r => stuck timeout_threshold (snd r)) (map_to_list db) in
  (Z.of_nat (length stuck_jobs),
   (fun job => if stuck timeout_threshold job then recover now job else job)
     <$> db).

End JobOrchestrationService.

(** ** [app/services/vast_service.py] *)

Module VastService.

Local Open Scope string_scope.

(** The fields of [app.core.config.Settings] the controller reads. *)
Record Settings : Type := mkSettings {
  VAST_AI_API_KEY : string;
  VAST_GPU_FILTER : option string;
  VAST_IMAGE : option string;
  GPU_IDLE_TIMEOUT_SEC : Z;
  STOP_MODE : string
}.

(** Requests to the rental provider's HTTP API. *)
Inductive Call : Type :=
  | GetInstance (instance_id : string)             (* GET  /v0/instances/{id} *)
  | CreateInstance (image : option string) (gpu : string)
                                                   (* POST /v0/instances *)
  | StopInstance (instance_id : string)            (* POST /v0/instances/{id}/stop *)
  | DestroyInstance (instance_id : string).        (* DELETE /v0/instances/{id} *)

(** What a request comes back with: the client raised (timeout, refused
    connection), or a response with its status code and its body parsed
    as a JSON object ([None] when [r.json()] raises). *)
Inductive Reply : Type :=
  | Raised
  | Answered (status_code : Z) (body : option Json).

(** The provider, as the controller observes it. *)
Definition Provider : Type := Call -> Reply.

(** Redis key [vast:active_instance_id], and the requests issued so far
    (oldest first). *)
Record World : Type := mkWorld {
  active_instance_id : option string;
  calls : list Call
}.

(** [str.lower()] on ASCII letters. *)
Definition lower_ascii (c : ascii) : ascii :=
  let n := nat_of_ascii c in
  if ((65 <=? n) && (n <=? 90))%nat then ascii_of_nat (n + 32) else c.

Fixpoint lower (s : string) : string :=
  match s with
  | EmptyString => EmptyString
  | String c s' => String (lower_ascii c) (lower s')
  end.

(** [sub in s] *)
Definition contains (sub s : string) : bool :=
  match String.index 0 sub s with
  | Some _ => true
  | None => false
  end.

(** [a or b] on optional strings, and [str(v)]. *)
Definition py_or (a b : option string) : option string :=
  if truthy_str a then a else b.

Definition py_str (v : option string) : string :=
  match v with
  | Some s => s
  | None => "None"
  end.

(** [_headers()]: [None] stands for the [RuntimeError] it raises. *)
Definition _headers (settings : Settings) : option string :=
  if String.eqb (VAST_AI_API_KEY settings) EmptyString
  then None
  else Some ("Bearer " ++ VAST_AI_API_KEY settings).

Definition get_active_instance_id (w : World) : option string :=
  active_instance_id w.

Definition set_active_instance_id (instance_id : option string) (w : World)
    : World :=
  if truthy_str instance_id
  then mkWorld instance_id (calls w)
  else mkWorld None (calls w).

(** One request: the provider answers, the request is on record. *)
Definition request (provider : Provider) (c : Call) (w : World)
    : Reply * World :=
  (provider c, mkWorld (active_instance_id w) (calls w ++ [c])).

Definition _is_instance_running (settings : Settings) (provider : Provider)
    (instance_id : string) (w : World) : bool * World :=
  match _headers settings with
  | None => (false, w)
  | Some _ =>
      match request provider (GetInstance instance_id) w with
      | (Raised, w) => (false, w)
      | (Answered status_code body, w) =>
          if negb (status_code =? 200)%Z then (false, w)
          else
            match body with
            | None => (false, w)
            | Some data =>
                let state :=
                  lower (py_str (py_or (py_or (data !! "state")
                                              (data !! "status"))
                                       (Some EmptyString))) in
                (contains "run" state, w)
            end
      end
  end.

(** [r.raise_for_status()] of httpx raises on every answer that is not
    a success (2xx). *)
Definition raise_for_status (status_code : Z) : bool :=
  negb ((200 <=? status_code) && (status_code <=? 299))%Z.

Definition ensure_gpu_instance (settings : Settings) (provider : Provider)
    (w : World) : option string * World :=
  let existing := get_active_instance_id w in
  let '(running, w) :=
    match existing with
    | Some id =>
        if truthy_str existing
        then _is_instance_running settings provider id w
        else (false, w)
    | None => (false, w)
    end in
  if running then (existing, w)
  else
    match _headers settings with
    | None => (None, w)
    | Some _ =>
        let gpu := py_str (py_or (VAST_GPU_FILTER settings) (Some "RTX_4090")) in
        match request provider (CreateInstance (VAST_IMAGE settings) gpu) w with
        | (Raised, w) => (None, w)
        | (Answered status_code body, w) =>
            if raise_for_status status_code then (None, w)
            else
              match body with
              | None => (None, w)
              | Some data =>
                  let instance_id :=
                    py_str (py_or (data !! "id") (data !! "instance_id")) in
                  if String.eqb instance_id EmptyString then (None, w)
                  else (Some instance_id,
                        set_active_instance_id (Some instance_id) w)
              end
        end
    end.

Definition accepted (status_code : Z) : bool :=
  bool_decide (status_code ∈ [200; 202; 204]%Z).

Definition stop_instance (settings : Settings) (provider : Provider)
    (instance_id : string) (w : World) : bool * World :=
  match _headers settings with
  | None => (false, w)
  | Some _ =>
      match request provider (StopInstance instance_id) w with
      | (Raised, w) => (false, w)
      | (Answered status_code _, w) =>
          if accepted status_code
          then (true, set_active_instance_id None w)
          else (false, w)
      end
  end.

Definition destroy_instance (settings : Settings) (provider : Provider)
    (instance_id : string) (w : World) : bool * World :=
  match _headers settings with
  | None => (false, w)
  | Some _ =>
      match request provider (DestroyInstance instance_id) w with
      | (Raised, w) => (false, w)
      | (Answered status_code _, w) =>
          if accepted status_code
          then (true, set_active_instance_id None w)
          else (false, w)
      end
  end.

(** [settings.GPU_IDLE_TIMEOUT_SEC or 180] *)
Definition idle_timeout (settings : Settings) : Z :=
  if (GPU_IDLE_TIMEOUT_SEC settings =? 0)%Z then 180%Z
  else GPU_IDLE_TIMEOUT_SEC settings.

(** [(settings.STOP_MODE or "stop").lower()] *)
Definition stop_mode (settings : Settings) : string :=
  lower (if String.eqb (STOP_MODE settings) EmptyString then "stop"
         else STOP_MODE settings).

(** Returns nothing: what [destroy_instance] or [stop_instance] returns
    is dropped. *)
Definition maybe_shutdown_gpu (settings : Settings) (provider : Provider)
    (idle_seconds : Z) (w : World) : unit * World :=
  match get_active_instance_id w with
  | None => (tt, w)
  | Some instance_id =>
      if negb (truthy_str (Some instance_id)) then (tt, w)
      else if (idle_seconds <? idle_timeout settings)%Z then (tt, w)
      else if String.eqb (stop_mode settings) "destroy"
      then (tt, snd (destroy_instance settings provider instance_id w))
      else (tt, snd (stop_instance settings provider instance_id w))
  end.

(** The state the status check reads in a response body. *)
Definition reported_state (data : Json) : string :=
  lower (py_str (py_or (py_or (data !! "state") (data !! "status"))
                       (Some EmptyString))).

(** The id [ensure_gpu_instance] reads in the body of a created
    instance. *)
Definition created_id (data : Json) : string :=
  py_str (py_or (data !! "id") (data !! "instance_id")).

(** The request [ensure_gpu_instance] provisions with. *)
Definition create_call (settings : Settings) : Call :=
  CreateInstance (VAST_IMAGE settings)
    (py_str (py_or (VAST_GPU_FILTER settings) (Some "RTX_4090"))).

(** The status check observes the instance running. *)
Definition healthy (settings : Settings) (provider : Provider)
    (instance_id : string) : Prop :=
  VAST_AI_API_KEY settings <> EmptyString
  /\ exists data,
       provider (GetInstance instance_id) = Answered 200 (Some data)
       /\ contains "run" (reported_state data) = true.

(** The status check fails: the client raises, or the answer is not a
    200 with a JSON body. *)
Definition check_failed (provider : Provider) (instance_id : string) : Prop :=
  match provider (GetInstance instance_id) with
  | Raised => True
  | Answered status_code body => status_code <> 200%Z \/ body = None
  end.

(** The creation fails: the client raises, the status is an error, or
    the body is not JSON. *)
Definition create_failed (settings : Settings) (provider : Provider) : Prop :=
  match provider (create_call settings) with
  | Raised => True
  | Answered status_code body =>
      raise_for_status status_code = true \/ body = None
  end.

(** The creation succeeds and names the instance [instance_id]. *)
Definition creates (settings : Settings) (provider : Provider)
    (instance_id : string) : Prop :=
  VAST_AI_API_KEY settings <> EmptyString
  /\ instance_id <> EmptyString
  /\ exists status_code data,
       provider (create_call settings) = Answered status_code (Some data)
       /\ raise_for_status status_code = false
       /\ created_id data = instance_id.

(** The request [maybe_shutdown_gpu] sends about the instance: the
    deletion in destroy mode, the stop otherwise. *)
Definition shutdown_call (settings : Settings) (instance_id : string) : Call :=
  if String.eqb (stop_mode settings) "destroy"
  then DestroyInstance instance_id
  else StopInstance instance_id.

(** The provider does not accept the request [c]: the client raises, or
    the answer is not 200, 202 or 204. *)
Definition refused (provider : Provider) (c : Call) : Prop :=
  match provider c with
  | Raised => True
  | Answered status_code _ => accepted status_code = false
  end.

(** An instance is on record and the status check finds it running. *)
Definition recorded_healthy (settings : Settings) (provider : Provider)
    (w : World) : Prop :=
  exists instance_id,
    active_instance_id w = Some instance_id
    /\ instance_id <> EmptyString
    /\ healthy settings provider instance_id.

(** The number of instances requested in a list of calls. *)
Definition provisioned (cs : list Call) : nat :=
  List.length (List.filter (fun c => match c with
                                     | CreateInstance _ _ => true
                                     | _ => false
                                     end) cs).

End VastService.

(** ** The operations of the core, and the predicates of the statements *)

Module Core.

(** A request to the core. *)
Inductive Op : Type :=
  | Claim (has_target : bool) (locked : gset Z)
      (worker_id : Workers.Identity) (tgt : string)
  | Done (job_id : Z) (body_result_json : Json) (worker_id : Workers.Identity)
  | Fail (job_id : Z) (body_error_message : string)
      (worker_id : Workers.Identity)
  | Dryrun (has_target : bool) (tgt : string)
  | Heartbeat (job_id : Z) (worker_id : Workers.Identity)
  | ServiceClaim (all_kinds : list string) (locked : gset Z)
      (worker_id : string) (job_kinds : option (list string)) (raised : bool)
  | UpdateStatus (job_id : Z) (new_status : JobStatus) (worker_id : string)
      (result_data : option Json) (error_message : option string)
  | Sweep (timeout_minutes : Z).

(** The table after the request served at time [now], each request in
    a session of its own. *)
Definition run (op : Op) (now : Z) (db : Jobs) : Jobs :=
  match op with
  | Claim has_target locked worker_id tgt =>
      snd (Workers.claim_job has_target locked worker_id tgt now db)
  | Done job_id body worker_id =>
      snd (Workers.mark_done job_id body worker_id now db)
  | Fail job_id body worker_id =>
      snd (Workers.mark_fail job_id body worker_id now db)
  | Dryrun has_target tgt =>
      snd (Workers.claim_dryrun has_target tgt db)
  | Heartbeat job_id worker_id =>
      snd (Workers.job_heartbeat job_id worker_id now db)
  | ServiceClaim all_kinds locked worker_id job_kinds raised =>
      JobOrchestrationService.close
        (snd (JobOrchestrationService.claim_job all_kinds locked worker_id
                job_kinds now raised
                (JobOrchestrationService.open_session db)))
  | UpdateStatus job_id new_status worker_id result_data error_message =>
      snd (JobOrchestrationService.update_job_status job_id new_status
             worker_id result_data error_message now db)
  | Sweep timeout_minutes =>
      snd (JobOrchestrationService.requeue_stuck_jobs timeout_minutes now db)
  end.

(** What a request does to a row it writes.  The service's claim, which
    commits nothing, writes none. *)
Inductive job_step (now : Z) : Op -> Job -> Job -> Prop :=
  | step_claim has_target locked worker_id tgt j :
      status j = QUEUED ->
      job_step now (Claim has_target locked worker_id tgt) j
        (set_started_at (Some now) (set_reserved_at (Some now)
           (set_reserved_by worker_id (set_status RUNNING j))))
  | step_done job_id body worker_id j :
      reserved_by j = worker_id ->
      job_step now (Done job_id body worker_id) j
        (set_completed_at (Some now) (set_error_message None
           (set_result_json (Some body) (set_status COMPLETED j))))
  | step_fail job_id body worker_id j :
      reserved_by j = worker_id ->
      job_step now (Fail job_id body worker_id) j
        (set_retries (retries j + 1) (set_completed_at (Some now)
           (set_error_message (Some body) (set_status FAILED j))))
  | step_heartbeat job_id worker_id j :
      reserved_by j = worker_id ->
      job_step now (Heartbeat job_id worker_id) j (set_updated_at now j)
  | step_update job_id new_status worker_id result_data error_message j :
      reserved_by j = Some worker_id ->
      JobOrchestrationService._is_valid_status_transition (status j) new_status
        = true ->
      job_step now
        (UpdateStatus job_id new_status worker_id result_data error_message) j
        (JobOrchestrationService.update_job new_status result_data
           error_message now j)
  | step_sweep timeout_minutes j :
      JobOrchestrationService.stuck
        (now - JobOrchestrationService.minutes timeout_minutes) j = true ->
      job_step now (Sweep timeout_minutes) j
        (JobOrchestrationService.recover now j).

(** The worker reports, which check the holder and nothing else. *)
Definition is_report (op : Op) : bool :=
  match op with
  | Done _ _ _ | Fail _ _ _ => true
  | _ => false
  end.

Definition is_sweep (op : Op) : bool :=
  match op with
  | Sweep _ => true
  | _ => false
  end.

(** A request of the router made with a token that carries no
    [worker_id]. *)
Definition anonymous (op : Op) : bool :=
  match op with
  | Claim _ _ None _ | Done _ _ None | Fail _ _ None | Heartbeat _ None => true
  | _ => false
  end.

(** A claim made with such a token. *)
Definition claims_anonymously (op : Op) : bool :=
  match op with
  | Claim _ _ None _ => true
  | _ => false
  end.

(** A history: requests with the times they are served at, oldest first. *)
Definition run_all (history : list (Op * Z)) (db : Jobs) : Jobs :=
  foldl (fun db step => run (fst step) (snd step) db) db history.

(** A row the router's claim may serve: queued, of the target asked for
    when rows carry one, and not locked by a claim in flight. *)
Definition eligible (has_target : bool) (locked : gset Z) (tgt : string)
    (id : Z) (j : Job) : Prop :=
  status j = QUEUED
  /\ (has_target = true -> target j = Some tgt)
  /\ id ∉ locked.

(** The same for the service's claim, which filters on the kind. *)
Definition eligible_kind (kinds : list string) (locked : gset Z)
    (id : Z) (j : Job) : Prop :=
  status j = QUEUED /\ kind j ∈ kinds /\ id ∉ locked.

(** [job] is served before any row that satisfies [ok]:
    highest priority, then oldest. *)
Definition served_first (ok : Z -> Job -> Prop) (db : Jobs) (job : Job) : Prop :=
  forall id' job',
    db !! id' = Some job' -> ok id' job' ->
    priority job' <= priority job
    /\ (priority job' = priority job -> created_at job <= created_at job').

(** A running job has a holder. *)
Definition running_is_held (db : Jobs) : Prop :=
  forall id j, db !! id = Some j -> status j = RUNNING -> reserved_by j <> None.

(** The invariant of the data model: a holder if and only if running. *)
Definition held_iff_running (db : Jobs) : Prop :=
  forall id j, db !! id = Some j -> (reserved_by j <> None <-> status j = RUNNING).

End Core.

Export Core.

(** ** Sample rows and tables *)

Module Samples.

Local Open Scope string_scope.

(** Job A (priority 5) was enqueued before job B (priority 9). *)
Definition job_A : Job :=
  mkJob 7 "generate_image" {["prompt" := "a"]} QUEUED None None 5
        None None 0 1 1 None None (Some "gpu").

Definition job_B : Job :=
  mkJob 7 "train_lora" {["dataset" := "b"]} QUEUED None None 9
        None None 0 2 2 None None (Some "gpu").

Definition backlog : Jobs := <[2%Z := job_B]> (<[1%Z := job_A]> ∅).

(** [job] as worker [w] holds it since [t]. *)
Definition held (w : string) (t : Z) (job : Job) : Job :=
  set_started_at (Some t) (set_reserved_at (Some t)
    (set_reserved_by (Some w) (set_status RUNNING job))).

(** Job A claimed by [w1] at time 0, job B still queued. *)
Definition in_progress : Jobs :=
  <[2%Z := job_B]> (<[1%Z := held "w1" 0 job_A]> ∅).

Definition all_kinds : list string :=
  ["generate_image"; "generate_video"; "train_lora"].

(** Job A alone; [w1] claims it and reports a failure, three times. *)
Definition only_A : Jobs := <[1%Z := job_A]> ∅.

(** A fleet with instance A on record, and a provider whose status
    check times out while it accepts to create instance B. *)
Definition settings : VastService.Settings :=
  VastService.mkSettings "secret" (Some "RTX_4090") (Some "worker:latest")
    180 "stop".

Definition fleet_A : VastService.World := VastService.mkWorld (Some "A") [].

Definition unreachable_status : VastService.Provider :=
  fun c =>
    match c with
    | VastService.GetInstance _ => VastService.Raised
    | VastService.CreateInstance _ _ =>
        VastService.Answered 200 (Some {["id" := "B"]})
    | _ => VastService.Raised
    end.

(** A provider that reports every instance running and creates X. *)
Definition all_running : VastService.Provider :=
  fun c =>
    match c with
    | VastService.GetInstance _ =>
        VastService.Answered 200 (Some {["state" := "Running"]})
    | VastService.CreateInstance _ _ =>
        VastService.Answered 201 (Some {["id" := "X"]})
    | _ => VastService.Answered 200 None
    end.

(** A provider that is down. *)
Definition down : VastService.Provider := fun _ => VastService.Raised.

Definition three_failures : list (Op * Z) :=
  [ (Claim true ∅ (Some "w1") "gpu", 10%Z);
    (UpdateStatus 1 FAILED "w1" None (Some "out of memory"), 20%Z);
    (Claim true ∅ (Some "w1") "gpu", 30%Z);
    (UpdateStatus 1 FAILED "w1" None (Some "out of memory"), 40%Z);
    (Claim true ∅ (Some "w1") "gpu", 50%Z);
    (UpdateStatus 1 FAILED "w1" None (Some "out of memory"), 60%Z) ].

(** Job A failed by the sweep at its third timeout: no holder. *)
Definition timed_out : Jobs :=
  <[1%Z := JobOrchestrationService.recover 9000
             (set_retries 2 (held "w1" 0 job_A))]> ∅.

End Samples.

(** ** Queue statistics: [get_worker_stats] and [get_job_stats] *)

Module Stats.

(** The rows of [rows] with status [s], counted. *)
Definition count_rows (s : JobStatus) (rows : list (Z * Job)) : nat :=
  length (filter (fun r : Z * Job => status (snd r) = s) rows).

(** [db.query(Job).filter(Job.status == s).count()] *)
Definition count_status (s : JobStatus) (db : Jobs) : nat :=
  count_rows s (map_to_list db).

(** The object [get_worker_stats] of [app/routers/workers.py] answers. *)
Record WorkerStats : Type := mkWorkerStats {
  queued : nat;
  running : nat;
  failed : nat;
  completed : nat
}.

Definition get_worker_stats (db : Jobs) : WorkerStats :=
  mkWorkerStats (count_status QUEUED db) (count_status RUNNING db)
    (count_status FAILED db) (count_status COMPLETED db).

(** [for status in JobStatus] *)
Definition all_statuses : list JobStatus :=
  [QUEUED; RUNNING; COMPLETED; FAILED; CANCELLED].

(** [get_job_stats] of [JobOrchestrationService]: a count for every
    status of the enumeration. *)
Definition get_job_stats (db : Jobs) : list (JobStatus * nat) :=
  (fun s => (s, count_status s db)) <$> all_statuses.

(** The sum of the counts of a statistics dictionary. *)
Definition total (stats : list (JobStatus * nat)) : nat :=
  foldr (fun entry acc => (snd entry + acc)%nat) 0%nat stats.

End Stats.

(** ** [app/routers/jobs.py]: [create_job] *)

Module JobsRouter.

Local Open Scope string_scope.

(** [payload.get("target") or payload.get("worker_target") or "local"] *)
Definition payload_target (payload : Json) : string :=
  VastService.py_str
    (VastService.py_or
       (VastService.py_or (payload !! "target") (payload !! "worker_target"))
       (Some "local")).

(** The [try] block of [create_job]: it provisions for a gpu job, then
    raises the 501 of the stub. *)
Definition create_job_try (settings : VastService.Settings)
    (provider : VastService.Provider) (payload_json : Json)
    (w : VastService.World) : Workers.Response * VastService.World :=
  let target := payload_target payload_json in
  let w :=
    if String.eqb target "gpu"
    then snd (VastService.ensure_gpu_instance settings provider w)
    else w in
  (Workers.HTTPException 501
     "Job creation persistence not implemented in this stub", w).

(** [except Exception]: whatever the block raised, the 501 included, is
    answered as a 500. *)
Definition create_job (settings : VastService.Settings)
    (provider : VastService.Provider) (payload_json : Json)
    (w : VastService.World) : Workers.Response * VastService.World :=
  match create_job_try settings provider payload_json w with
  | (Workers.HTTPException _ _, w) =>
      (Workers.HTTPException 500 "Failed to create job", w)
  | r => r
  end.

End JobsRouter.

(** ** [worker/executor.py]: [process_job] *)

Module Executor.

Local Open Scope string_scope.

(** The body of a claim, as the worker reads it: the four fields
    [process_job] looks up, which [JobClaimResponse] always carries. *)
Record ClaimedJob : Type := mkClaimedJob {
  id : Z;
  user_id : Z;
  kind : string;
  payload_json : Json
}.

(** What the worker does to the outside, in order. *)
Inductive Event : Type :=
  | PutObject (key : string) (data : string)          (* s3.put_object *)
  | PostDone (job_id : Z) (result : Json)             (* POST .../done *)
  | PostFail (job_id : Z) (msg : string).             (* POST .../fail *)

(** A call returns, or raises an exception [e] with [str(e) = msg]. *)
Inductive Outcome (A : Type) : Type :=
  | Returns (a : A)
  | Raises (msg : string).

Arguments Returns {A} a.
Arguments Raises {A} msg.

(** Computations of the worker: they add to the events and return or
    raise. *)
Definition M (A : Type) : Type := list Event -> Outcome A * list Event.

Definition ret {A : Type} (a : A) : M A := fun t => (Returns a, t).

Definition raise {A : Type} (msg : string) : M A := fun t => (Raises msg, t).

Definition bind {A B : Type} (m : M A) (k : A -> M B) : M B :=
  fun t =>
    match m t with
    | (Returns a, t) => k a t
    | (Raises msg, t) => (Raises msg, t)
    end.

Definition emit (e : Event) : M unit :=
  fun t => (Returns tt, (t ++ [e])%list).

(** [try: body except Exception as e: handler(str(e))] *)
Definition try_except {A : Type} (body : M A) (handler : string -> M A) : M A :=
  fun t =>
    match body t with
    | (Returns a, t) => (Returns a, t)
    | (Raises msg, t) => handler msg t
    end.

Notation "x <- m ;; k" := (bind m (fun x => k))
  (at level 100, m at next level, right associativity).
Notation "m ;;; k" := (bind m (fun _ => k))
  (at level 100, right associativity).

(** The three pipelines and the object store, which the worker calls and
    this development does not look into. *)
Record Env : Type := mkEnv {
  gen_txt2img : Json -> Outcome string;
  gen_img2img : Json -> Outcome string;
  gen_inpaint : Json -> Outcome string;
  put_object : string -> string -> Outcome unit
}.

Definition call {A : Type} (o : Outcome A) : M A := fun t => (o, t).

Definition upload_bytes (env : Env) (key : string) (data : string) : M string :=
  emit (PutObject key data) ;;;
  call (put_object env key data) ;;;
  ret key.

(** [update_done], [update_fail]: the request is sent; what comes back,
    an exception included, is printed and dropped. *)
Definition update_done (job_id : Z) (result : Json) : M unit :=
  emit (PostDone job_id result).

Definition update_fail (job_id : Z) (msg : string) : M unit :=
  emit (PostFail job_id msg).

Definition process_job (env : Env) (job : ClaimedJob) : M unit :=
  let kind := kind job in
  let payload := payload_json job in
  let job_id := id job in
  try_except
    (if String.eqb kind "generate_image" then
       let mode := default "txt2img" (payload !! "mode") in
       png_data <-
         (if String.eqb mode "txt2img" then call (gen_txt2img env payload)
          else if String.eqb mode "img2img" then call (gen_img2img env payload)
          else if String.eqb mode "inpaint" then call (gen_inpaint env payload)
          else raise ("Unknown mode: " ++ mode)) ;;
       let key :=
         "outputs/u" ++ pretty (user_id job) ++ "/" ++ pretty job_id ++ ".png" in
       upload_bytes env key png_data ;;;
       update_done job_id {["object_key" := key]}
     else if String.eqb kind "train_lora" then
       raise "LoRA training not yet implemented"
     else raise ("Unsupported job kind: " ++ kind))
    (fun msg => update_fail job_id msg).

(** The reports among the events. *)
Definition is_post (e : Event) : bool :=
  match e with
  | PutObject _ _ => false
  | _ => true
  end.

Definition posts (t : list Event) : list Event := List.filter is_post t.

(** The pipeline [process_job] runs for a mode, and the key it uploads
    the image under. *)
Definition pipeline (env : Env) (mode : string)
    : option (Json -> Outcome string) :=
  if String.eqb mode "txt2img" then Some (gen_txt2img env)
  else if String.eqb mode "img2img" then Some (gen_img2img env)
  else if String.eqb mode "inpaint" then Some (gen_inpaint env)
  else None.

Definition mode_of (job : ClaimedJob) : string :=
  default "txt2img" (payload_json job !! "mode").

Definition output_key (job : ClaimedJob) : string :=
  "outputs/u" ++ pretty (user_id job) ++ "/" ++ pretty (id job) ++ ".png".

End Executor.

(** ** More sample data *)

Module MoreSamples.

Local Open Scope string_scope.

(** Job A completed by [w1], who still holds it; job B queued. *)
Definition finished : Jobs :=
  snd (Workers.mark_done 1 {["object_key" := "outputs/u7/1.png"]} (Some "w1") 40
         Samples.in_progress).

Definition finished_A : Job :=
  mkJob 7 "generate_image" {["prompt" := "a"]} COMPLETED
        (Some {["object_key" := "outputs/u7/1.png"]}) None 5
        (Some "w1") (Some 0) 0 1 1 (Some 0) (Some 40) (Some "gpu").

(** Job A as three failed attempts of [w1] leave it. *)
Definition failed_thrice : Jobs :=
  run_all Samples.three_failures Samples.only_A.

Definition exhausted_A : Job :=
  mkJob 7 "generate_image" {["prompt" := "a"]} FAILED None
        (Some "out of memory") 5 (Some "w1") (Some 50) 3 1 60
        (Some 50) (Some 60) (Some "gpu").

(** Job A as the sweep leaves it at its third timeout. *)
Definition timed_out_A : Job :=
  JobOrchestrationService.recover 9000
    (set_retries 2 (Samples.held "w1" 0 Samples.job_A)).

(** A provider that accepts the deletion of an instance and refuses to
    stop one. *)
Definition refuses_stop : VastService.Provider :=
  fun c =>
    match c with
    | VastService.StopInstance _ => VastService.Answered 500 None
    | VastService.DestroyInstance _ => VastService.Answered 204 None
    | _ => VastService.Raised
    end.

Definition zero_timeout : VastService.Settings :=
  VastService.mkSettings "secret" None None 0 "stop".

(** Fleet with instance X on record, and a provider that accepts every
    request. *)
Definition fleet_X : VastService.World := VastService.mkWorld (Some "X") [].

Definition destroy_settings : VastService.Settings :=
  VastService.mkSettings "secret" None None 0 "Destroy".

Definition no_key : VastService.Settings :=
  VastService.mkSettings EmptyString None None 180 "stop".

(** A provider whose creation answers 200 with a body without any id. *)
Definition no_id : VastService.Provider :=
  fun c =>
    match c with
    | VastService.CreateInstance _ _ =>
        VastService.Answered 200 (Some {["status" := "created"]})
    | _ => VastService.Raised
    end.

(** A provider whose creation answers 201 with an empty instance id. *)
Definition empty_id : VastService.Provider :=
  fun c =>
    match c with
    | VastService.CreateInstance _ _ =>
        VastService.Answered 201 (Some {["instance_id" := EmptyString]})
    | _ => VastService.Raised
    end.

Definition gpu_payload : Json := {["worker_target" := "gpu"]}.

(** Pipelines that return an image, and a store that accepts it. *)
Definition working_env : Executor.Env :=
  Executor.mkEnv (fun _ => Executor.Returns "png")
    (fun _ => Executor.Returns "png") (fun _ => Executor.Returns "png")
    (fun _ _ => Executor.Returns tt).

Definition claimed_A : Executor.ClaimedJob :=
  Executor.mkClaimedJob 1 7 "generate_image" {["prompt" := "a"]}.

End MoreSamples.

(** * Properties *)

(** ** The ordered query *)

Section FirstRow.

Lemma sorts_before_spec (a b : Job) :
  sorts_before a b = true <->
  priority b < priority a
  \/ (priority a = priority b /\ created_at a < created_at b).
Proof.
  unfold sorts_before.
  rewrite orb_true_iff, andb_true_iff, Z.ltb_lt, Z.eqb_eq, Z.ltb_lt.
  reflexivity.
Qed.

Lemma sorts_before_false (a b : Job) :
  sorts_before a b = false <->
  priority a <= priority b
  /\ (priority a = priority b -> created_at b <= created_at a).
Proof.
  rewrite <- not_true_iff_false, sorts_before_spec. lia.
Qed.

Lemma first_row_nil (rows : list (Z * Job)) :
  first_row rows = None <-> rows = [].
Proof.
  destruct rows as [|r rest]; simpl; [tauto|].
  destruct (first_row rest) as [b|]; [destruct (sorts_before _ _)|];
    split; discriminate.
Qed.

Lemma first_row_elem (rows : list (Z * Job)) (r : Z * Job) :
  first_row rows = Some r -> r ∈ rows.
Proof.
  revert r. induction rows as [|x rest IH]; intros r; simpl; [discriminate|].
  destruct (first_row rest) as [b|].
  - destruct (sorts_before (snd b) (snd x)); intros [= <-].
    + right. apply IH. reflexivity.
    + left.
  - intros [= <-]. left.
Qed.

(** No row of the query sorts strictly before the one served. *)
Lemma first_row_least (rows : list (Z * Job)) (r r' : Z * Job) :
  first_row rows = Some r -> r' ∈ rows ->
  sorts_before (snd r') (snd r) = false.
Proof.
  revert r. induction rows as [|x rest IH]; intros r; simpl; [discriminate|].
  intros Hfirst Hin. apply elem_of_cons in Hin.
  destruct (first_row rest) as [b|] eqn:Hrest.
  - specialize (IH b eq_refl).
    destruct (sorts_before (snd b) (snd x)) eqn:Hbx; injection Hfirst as <-.
    + destruct Hin as [->|Hin]; [|auto].
      apply sorts_before_spec in Hbx. apply sorts_before_false. lia.
    + destruct Hin as [->|Hin].
      * apply sorts_before_false. lia.
      * apply IH in Hin.
        apply sorts_before_false in Hbx, Hin. apply sorts_before_false. lia.
  - injection Hfirst as <-. apply first_row_nil in Hrest. subst rest.
    destruct Hin as [->|Hin].
    + apply sorts_before_false. lia.
    + inversion Hin.
Qed.

(** A filtered, ordered query over the table: the row served is in the
    table, passes the filter and sorts first among those that do. *)
Lemma first_row_filter (keep : Z * Job -> bool) (db : Jobs) (id : Z) (job : Job) :
  first_row (List.filter keep (map_to_list db)) = Some (id, job) ->
  db !! id = Some job
  /\ keep (id, job) = true
  /\ forall id' job',
       db !! id' = Some job' -> keep (id', job') = true ->
       priority job' <= priority job
       /\ (priority job' = priority job -> created_at job <= created_at job').
Proof.
  intros Hfirst.
  pose proof (first_row_elem _ _ Hfirst) as Hin.
  apply list_elem_of_In, filter_In in Hin. destruct Hin as [Hin Hkeep].
  apply list_elem_of_In, elem_of_map_to_list in Hin.
  split; [exact Hin|]. split; [exact Hkeep|].
  intros id' job' Hlook Hkeep'.
  assert ((id', job') ∈ List.filter keep (map_to_list db)) as Hin'.
  { apply list_elem_of_In, filter_In. split; [|exact Hkeep'].
    apply list_elem_of_In, elem_of_map_to_list. exact Hlook. }
  pose proof (first_row_least _ _ _ Hfirst Hin') as Hle. simpl in Hle.
  apply sorts_before_false in Hle. lia.
Qed.

Lemma first_row_filter_none (keep : Z * Job -> bool) (db : Jobs) :
  first_row (List.filter keep (map_to_list db)) = None <->
  forall id job, db !! id = Some job -> keep (id, job) = false.
Proof.
  rewrite first_row_nil. split.
  - intros Hnil id job Hlook.
    destruct (keep (id, job)) eqn:Hkeep; [|reflexivity].
    assert ((id, job) ∈ List.filter keep (map_to_list db)) as Hin.
    { apply list_elem_of_In, filter_In. split; [|exact Hkeep].
      apply list_elem_of_In, elem_of_map_to_list. exact Hlook. }
    rewrite Hnil in Hin. inversion Hin.
  - intros Hnone.
    destruct (List.filter keep (map_to_list db)) as [|[id job] rest] eqn:Hf;
      [reflexivity|].
    assert (In (id, job) (List.filter keep (map_to_list db))) as Hin
      by (rewrite Hf; left; reflexivity).
    apply filter_In in Hin. destruct Hin as [Hin Hkeep].
    apply list_elem_of_In, elem_of_map_to_list in Hin.
    rewrite (Hnone _ _ Hin) in Hkeep. discriminate.
Qed.

End FirstRow.

(** ** Claiming *)

Section Claiming.

Lemma router_filter_spec has_target locked tgt (id : Z) (j : Job) :
  Workers.queued_for has_target tgt j && Workers.skip_locked locked (id, j) = true
  <-> eligible has_target locked tgt id j.
Proof.
  unfold Workers.queued_for, Workers.target_filter, Workers.skip_locked, eligible.
  rewrite !andb_true_iff, !bool_decide_eq_true. simpl.
  destruct has_target; [rewrite bool_decide_eq_true|]; intuition congruence.
Qed.

Lemma service_filter_spec kinds locked (id : Z) (j : Job) :
  JobOrchestrationService.queued_of_kind kinds j
  && Workers.skip_locked locked (id, j) = true
  <-> eligible_kind kinds locked id j.
Proof.
  unfold JobOrchestrationService.queued_of_kind, Workers.skip_locked,
    eligible_kind.
  rewrite !andb_true_iff, !bool_decide_eq_true. simpl. tauto.
Qed.

(** What the router's claim answers with a job. *)
Lemma router_claim_some has_target locked worker_id tgt now (db db' : Jobs) id job :
  Workers.claim_job has_target locked worker_id tgt now db = (Workers.JobBody id job, db') ->
  exists before,
    db !! id = Some before
    /\ eligible has_target locked tgt id before
    /\ served_first (eligible has_target locked tgt) db before
    /\ job = set_started_at (Some now) (set_reserved_at (Some now)
               (set_reserved_by worker_id (set_status RUNNING before)))
    /\ db' = <[id := job]> db.
Proof.
  unfold Workers.claim_job, Workers.claim_query.
  destruct (first_row _) as [[id0 job0]|] eqn:Hq; [|discriminate].
  intros [= <- <- <-]. apply first_row_filter in Hq.
  destruct Hq as (Hlook & Hkeep & Hbest).
  exists job0. split; [exact Hlook|]. split; [apply router_filter_spec, Hkeep|].
  split; [|split; reflexivity].
  intros id' job' Hlook' Hok. apply (Hbest id' job' Hlook').
  apply router_filter_spec, Hok.
Qed.



Lemma service_claim_some all_kinds locked worker_id job_kinds now
    (s s' : JobOrchestrationService.Session) id job :
  JobOrchestrationService.claim_job all_kinds locked worker_id job_kinds now
    false s = (Some (id, job), s') ->
  let kinds := JobOrchestrationService.kinds_param all_kinds job_kinds in
  let db := JobOrchestrationService.pending s in
  exists before,
    db !! id = Some before
    /\ eligible_kind kinds locked id before
    /\ served_first (eligible_kind kinds locked) db before
    /\ job = set_updated_at now (set_started_at (Some now)
               (set_reserved_at (Some now)
                  (set_reserved_by (Some worker_id) (set_status RUNNING before))))
    /\ s' = JobOrchestrationService.mkSession
              (JobOrchestrationService.committed s) (<[id := job]> db).
Proof.
  unfold JobOrchestrationService.claim_job.
  destruct (first_row _) as [[id0 job0]|] eqn:Hq; [|discriminate].
  intros [= <- <- <-]. apply first_row_filter in Hq.
  destruct Hq as (Hlook & Hkeep & Hbest). simpl.
  exists job0. split; [exact Hlook|]. split; [apply service_filter_spec, Hkeep|].
  split; [|split; reflexivity].
  intros id' job' Hlook' Hok. apply (Hbest id' job' Hlook').
  apply service_filter_spec, Hok.
Qed.



(** The service's claim commits nothing. *)
Lemma service_claim_commits_nothing all_kinds locked worker_id job_kinds now
    raised (s : JobOrchestrationService.Session) :
  JobOrchestrationService.committed
    (snd (JobOrchestrationService.claim_job all_kinds locked worker_id
            job_kinds now raised s))
  = JobOrchestrationService.committed s.
Proof.
  unfold JobOrchestrationService.claim_job.
  destruct raised; [reflexivity|].
  destruct (first_row _) as [[id0 job0]|]; reflexivity.
Qed.


(** Two ingredients of mutual exclusion, request by request: a claim
    passes over the rows other claims in flight have locked, and a job
    that has been served is running, so that no later claim serves it. *)
Lemma claim_skips_locked_rows has_target locked worker_id tgt now
    (db db' : Jobs) id job :
  Workers.claim_job has_target locked worker_id tgt now db
    = (Workers.JobBody id job, db') ->
  id ∉ locked.
Proof.
  intros Hclaim.
  destruct (router_claim_some _ _ _ _ _ _ _ _ _ Hclaim)
    as (before & _ & Hel & _).
  apply Hel.
Qed.

Lemma claimed_job_is_not_served_again
    has_target locked worker_id tgt now (db db' : Jobs) id job
    has_target' locked' worker_id' tgt' now' (db'' : Jobs) id' job' :
  Workers.claim_job has_target locked worker_id tgt now db
    = (Workers.JobBody id job, db') ->
  Workers.claim_job has_target' locked' worker_id' tgt' now' db'
    = (Workers.JobBody id' job', db'') ->
  id' <> id.
Proof.
  intros Hfirst Hsecond.
  destruct (router_claim_some _ _ _ _ _ _ _ _ _ Hfirst)
    as (before & _ & _ & _ & -> & ->).
  destruct (router_claim_some _ _ _ _ _ _ _ _ _ Hsecond)
    as (before' & Hlook & (Hqueued & _) & _).
  intros ->. rewrite lookup_insert_eq in Hlook.
  injection Hlook as <-. discriminate Hqueued.
Qed.

End Claiming.

(** ** C4: what a claim serves *)



(** ** C6: reports of a worker that does not hold the job *)

(** C6. A done, fail or heartbeat call on an existing job by a caller
    whose identity differs from [reserved_by] is answered 403 and the
    table is left as it was. *)
Theorem report_of_non_holder_is_rejected
    (job_id : Z) (job : Job) (worker_id : Workers.Identity)
    (body_result_json : Json) (body_error_message : string) (now : Z)
    (db : Jobs) :
  db !! job_id = Some job ->
  reserved_by job <> worker_id ->
  Workers.mark_done job_id body_result_json worker_id now db
    = (Workers.HTTPException 403 "Not your job", db)
  /\ Workers.mark_fail job_id body_error_message worker_id now db
     = (Workers.HTTPException 403 "Not your job", db)
  /\ Workers.job_heartbeat job_id worker_id now db
     = (Workers.HTTPException 403 "Not your job", db).
Proof.
  intros Hlook Hother.
  unfold Workers.mark_done, Workers.mark_fail, Workers.job_heartbeat.
  rewrite Hlook, (bool_decide_eq_true_2 _ Hother). auto.
Qed.

Lemma report_of_non_holder_is_rejected_witness :
  Workers.mark_done 1 {["url" := "s3://out"]} (Some "w2"%string) 50
    Samples.in_progress
    = (Workers.HTTPException 403 "Not your job", Samples.in_progress)
  /\ Workers.mark_fail 1 "out of memory" (Some "w2"%string) 50
       Samples.in_progress
     = (Workers.HTTPException 403 "Not your job", Samples.in_progress)
  /\ Workers.job_heartbeat 1 (Some "w2"%string) 50 Samples.in_progress
     = (Workers.HTTPException 403 "Not your job", Samples.in_progress).
Proof.
  apply (report_of_non_holder_is_rejected 1 (Samples.held "w1" 0 Samples.job_A)).
  - vm_compute. reflexivity.
  - simpl. discriminate.
Defined.

(** ** C10: the dry run *)

Lemma dryrun_filter_spec has_target tgt (id : Z) (j : Job) :
  Workers.queued_for has_target tgt j = true <-> eligible has_target ∅ tgt id j.
Proof.
  rewrite <- router_filter_spec. unfold Workers.skip_locked. simpl.
  rewrite (bool_decide_eq_true_2 (id ∉ (∅ : gset Z))) by set_solver.
  rewrite andb_true_r. reflexivity.
Qed.

(** C10. The dry run writes nothing; it answers the id of a queued job of
    the target (the one a claim would serve first) when there is one, and
    204 when there is none. *)
Theorem claim_dryrun_reports_and_writes_nothing
    (has_target : bool) (tgt : string) (db : Jobs) :
  snd (Workers.claim_dryrun has_target tgt db) = db
  /\ (forall id,
        fst (Workers.claim_dryrun has_target tgt db) = Workers.Available id ->
        exists job,
          db !! id = Some job
          /\ eligible has_target ∅ tgt id job
          /\ served_first (eligible has_target ∅ tgt) db job)
  /\ ((exists id job, db !! id = Some job /\ eligible has_target ∅ tgt id job) ->
      exists id, fst (Workers.claim_dryrun has_target tgt db) = Workers.Available id)
  /\ ((forall id job, db !! id = Some job -> ~ eligible has_target ∅ tgt id job) ->
      fst (Workers.claim_dryrun has_target tgt db) = Workers.NoContent).
Proof.
  unfold Workers.claim_dryrun.
  destruct (first_row _) as [[id0 job0]|] eqn:Hq; simpl.
  - apply first_row_filter in Hq. destruct Hq as (Hlook & Hkeep & Hbest).
    simpl in Hkeep. split; [reflexivity|]. split; [|split].
    + intros id [= <-]. exists job0. split; [exact Hlook|].
      split; [apply dryrun_filter_spec, Hkeep|].
      intros id' job' Hlook' Hok. apply (Hbest id' job' Hlook').
      simpl. apply (dryrun_filter_spec has_target tgt id'), Hok.
    + intros _. exists id0. reflexivity.
    + intros Hnone. exfalso. apply (Hnone _ _ Hlook).
      apply dryrun_filter_spec, Hkeep.
  - split; [reflexivity|]. split; [|split].
    + discriminate.
    + intros (id & job & Hlook & Hok). exfalso.
      pose proof (proj1 (first_row_filter_none _ _) Hq id job Hlook) as Hkeep.
      simpl in Hkeep. apply (dryrun_filter_spec has_target tgt id) in Hok.
      congruence.
    + reflexivity.
Qed.

Lemma claim_dryrun_reports_and_writes_nothing_witness :
  (exists id job, Samples.in_progress !! id = Some job
                  /\ eligible true ∅ "gpu" id job)
  /\ exists id,
       fst (Workers.claim_dryrun true "gpu" Samples.in_progress)
         = Workers.Available id.
Proof.
  assert (exists id job, Samples.in_progress !! id = Some job
                         /\ eligible true ∅ "gpu" id job) as H.
  { exists 2, Samples.job_B. split; [vm_compute; reflexivity|].
    split; [reflexivity|]. split; [reflexivity|]. set_solver. }
  split; [exact H|].
  exact (proj1 (proj2 (proj2 (claim_dryrun_reports_and_writes_nothing
                                true "gpu" Samples.in_progress))) H).
Defined.

(** ** How a request changes a row *)

Section Rows.

(** A request adds no row and removes none; a row it leaves is either
    as it was or rewritten as [job_step] says. *)
Lemma run_lookup (op : Op) (now : Z) (db : Jobs) (id : Z) :
  match db !! id with
  | Some j =>
      exists j', run op now db !! id = Some j'
                 /\ (j' = j \/ job_step now op j j')
  | None => run op now db !! id = None
  end.
Proof.
  assert (forall (k : Z) (old new : Job),
            db !! k = Some old ->
            (old = new \/ job_step now op old new) ->
            match db !! id with
            | Some j => exists j', <[k := new]> db !! id = Some j'
                                   /\ (j' = j \/ job_step now op j j')
            | None => <[k := new]> db !! id = None
            end) as Hwrite.
  { intros k old new Hk Hstep. destruct (decide (k = id)) as [->|Hne].
    - rewrite Hk, lookup_insert_eq. exists new.
      split; [reflexivity|]. destruct Hstep as [->|]; auto.
    - rewrite lookup_insert_ne by exact Hne.
      destruct (db !! id) as [j|]; [exists j|]; auto. }
  assert (match db !! id with
          | Some j => exists j', db !! id = Some j'
                                 /\ (j' = j \/ job_step now op j j')
          | None => db !! id = None
          end) as Hsame.
  { destruct (db !! id) as [j|] eqn:E; [exists j|]; auto. }
  destruct op; simpl.
  - unfold Workers.claim_job, Workers.claim_query.
    destruct (first_row _) as [[id0 job0]|] eqn:Hq; simpl; [|exact Hsame].
    apply first_row_filter in Hq. destruct Hq as (Hlook & Hkeep & _).
    apply router_filter_spec in Hkeep. destruct Hkeep as (Hq & _).
    apply (Hwrite _ _ _ Hlook). right. constructor. exact Hq.
  - unfold Workers.mark_done.
    destruct (db !! job_id) as [job|] eqn:Hlook; simpl; [|exact Hsame].
    case_bool_decide as Hres; simpl; [exact Hsame|].
    apply (Hwrite _ _ _ Hlook). right. constructor.
    destruct (decide (reserved_by job = worker_id)); tauto.
  - unfold Workers.mark_fail.
    destruct (db !! job_id) as [job|] eqn:Hlook; simpl; [|exact Hsame].
    case_bool_decide as Hres; simpl; [exact Hsame|].
    apply (Hwrite _ _ _ Hlook). right. constructor.
    destruct (decide (reserved_by job = worker_id)); tauto.
  - unfold Workers.claim_dryrun.
    destruct (first_row _) as [[id0 job0]|]; exact Hsame.
  - unfold Workers.job_heartbeat.
    destruct (db !! job_id) as [job|] eqn:Hlook; simpl; [|exact Hsame].
    case_bool_decide as Hres; simpl; [exact Hsame|].
    apply (Hwrite _ _ _ Hlook). right. constructor.
    destruct (decide (reserved_by job = worker_id)); tauto.
  - unfold JobOrchestrationService.close.
    rewrite service_claim_commits_nothing. exact Hsame.
  - unfold JobOrchestrationService.update_job_status.
    destruct (db !! job_id) as [job|] eqn:Hlook; simpl; [|exact Hsame].
    case_bool_decide as Hres; simpl; [exact Hsame|].
    destruct (JobOrchestrationService._is_valid_status_transition _ _) eqn:Hv;
      simpl; [|exact Hsame].
    apply (Hwrite _ _ _ Hlook). right. constructor; [|exact Hv].
    destruct (decide (reserved_by job = Some worker_id)); tauto.
  - rewrite lookup_fmap. destruct (db !! id) as [j|]; simpl; [|reflexivity].
    destruct (JobOrchestrationService.stuck _ j) eqn:Hs.
    + eexists. split; [reflexivity|]. right. constructor. exact Hs.
    + exists j. auto.
Qed.

Lemma run_lookup_some (op : Op) (now : Z) (db : Jobs) (id : Z) (j : Job) :
  db !! id = Some j ->
  exists j', run op now db !! id = Some j' /\ (j' = j \/ job_step now op j j').
Proof.
  intros H. pose proof (run_lookup op now db id) as R. rewrite H in R. exact R.
Qed.

Lemma run_lookup_inv (op : Op) (now : Z) (db : Jobs) (id : Z) (j' : Job) :
  run op now db !! id = Some j' ->
  exists j, db !! id = Some j /\ (j' = j \/ job_step now op j j').
Proof.
  intros H. pose proof (run_lookup op now db id) as R.
  destruct (db !! id) as [j|].
  - destruct R as (j'' & Hrun & Hstep). exists j. split; [reflexivity|].
    congruence.
  - congruence.
Qed.

End Rows.

(** ** C1: the liveness sweep *)

Section Sweep.

Import JobOrchestrationService.


(** What the sweep selects on: the status and [reserved_at]. *)
Lemma stuck_spec (timeout_threshold : Z) (j : Job) :
  stuck timeout_threshold j = true <->
  status j = RUNNING /\ exists t, reserved_at j = Some t /\ t < timeout_threshold.
Proof.
  unfold stuck. rewrite andb_true_iff, bool_decide_eq_true.
  destruct (reserved_at j) as [t|].
  - rewrite Z.ltb_lt. split.
    + intros [? ?]. eauto.
    + intros [? (t' & [= <-] & ?)]. auto.
  - split; [intros [_ [=]]|intros [_ (t & [=] & _)]].
Qed.

(** A heartbeat moves [updated_at], which the selection does not read. *)
Lemma stuck_ignores_updated_at (timeout_threshold t : Z) (j : Job) :
  stuck timeout_threshold (set_updated_at t j) = stuck timeout_threshold j.
Proof. reflexivity. Qed.

(** A recovered row is queued or failed, has one more retry and no
    holder. *)
Lemma recover_spec (now : Z) (j : Job) :
  retries (recover now j) = retries j + 1
  /\ reserved_by (recover now j) = None
  /\ reserved_at (recover now j) = None
  /\ updated_at (recover now j) = now
  /\ (retries j + 1 < 3 -> status (recover now j) = QUEUED)
  /\ (3 <= retries j + 1 ->
      status (recover now j) = FAILED
      /\ completed_at (recover now j) = Some now
      /\ error_message (recover now j)
         = Some "Job timed out after multiple retries"%string).
Proof.
  unfold recover. simpl.
  destruct (3 <=? retries j + 1) eqn:E; simpl;
    [apply Z.leb_le in E|apply Z.leb_gt in E];
    repeat split; try reflexivity; intros; try lia.
Qed.


End Sweep.

(** C1. Job 1 is running, held by [w1] since time 0.  Its holder
    heartbeats at time 3000 and the call is accepted: [updated_at] is
    3000.  The sweep of time 3010 with a timeout of 30 minutes, whose
    threshold is 1210, nevertheless recovers the job: it is queued again
    with one retry and no holder, because the sweep compares
    [reserved_at] (0), not [updated_at], with the threshold. *)
Theorem sweep_recovers_job_with_fresh_heartbeat :
  let beat := Workers.job_heartbeat 1 (Some "w1"%string) 3000 Samples.in_progress in
  let swept := JobOrchestrationService.requeue_stuck_jobs 30 3010 (snd beat) in
  fst beat = Workers.NoContent
  /\ (status <$> snd beat !! 1) = Some RUNNING
  /\ (updated_at <$> snd beat !! 1) = Some 3000
  /\ 3010 - JobOrchestrationService.minutes 30 = 1210
  /\ fst swept = 1
  /\ (status <$> snd swept !! 1) = Some QUEUED
  /\ (retries <$> snd swept !! 1) = Some 1
  /\ (reserved_by <$> snd swept !! 1) = Some None.
Proof. vm_compute. repeat split; reflexivity. Qed.

(** ** C2: a fail report of the holder *)

Section FailReport.

Import JobOrchestrationService.

(** The row a fail report through the service leaves. *)
Lemma update_job_failed_spec (result_data : option Json)
    (error_message : option string) (now : Z) (j : Job) :
  let j' := update_job FAILED result_data error_message now j in
  retries j' = retries j + 1
  /\ completed_at j' = Some now
  /\ updated_at j' = now
  /\ (truthy_str error_message = true -> Model.error_message j' = error_message)
  /\ (retries j + 1 < 3 ->
      status j' = QUEUED /\ reserved_by j' = None /\ reserved_at j' = None)
  /\ (3 <= retries j + 1 ->
      status j' = FAILED /\ reserved_by j' = reserved_by j
      /\ reserved_at j' = reserved_at j).
Proof.
  unfold update_job.
  destruct (truthy_str error_message) eqn:Hmsg; simpl;
    (destruct (3 <=? retries j + 1) eqn:E; simpl;
     [apply Z.leb_le in E|apply Z.leb_gt in E]);
    repeat split; try reflexivity; intros; try lia; try discriminate.
Qed.

Lemma update_job_status_accepts (job_id : Z) (new_status : JobStatus)
    (worker_id : string) (result_data : option Json)
    (error_message : option string) (now : Z) (db : Jobs) (job : Job) :
  db !! job_id = Some job ->
  reserved_by job = Some worker_id ->
  _is_valid_status_transition (status job) new_status = true ->
  update_job_status job_id new_status worker_id result_data error_message now db
  = (true,
     <[job_id := update_job new_status result_data error_message now job]> db).
Proof.
  intros Hlook Hres Hvalid. unfold update_job_status.
  rewrite Hlook, bool_decide_eq_false_2, Hvalid; [reflexivity|].
  intros Hne. apply Hne, Hres.
Qed.

End FailReport.

(** C2, as stated, fails.  Job 1 is running, held by [w1], with 2
    retries, which is below 3.  A fail report of [w1] through
    [update_job_status] leaves it failed, not queued; through the
    endpoint [mark_fail] the job is failed as well, and keeps its
    holder. *)
Lemma fail_report_below_ceiling_not_requeued :
  let job := set_retries 2 (Samples.held "w1" 0 Samples.job_A) in
  let db : Jobs := <[1 := job]> ∅ in
  let by_service :=
    snd (JobOrchestrationService.update_job_status 1 FAILED "w1" None
           (Some "out of memory"%string) 50 db) in
  let by_router :=
    snd (Workers.mark_fail 1 "out of memory" (Some "w1"%string) 50 db) in
  status job = RUNNING /\ reserved_by job = Some "w1"%string /\ retries job < 3
  /\ (status <$> by_service !! 1) = Some FAILED
  /\ (status <$> by_router !! 1) = Some FAILED
  /\ (reserved_by <$> by_router !! 1) = Some (Some "w1"%string).
Proof. vm_compute. repeat split; reflexivity. Qed.

(** C2, amended.  A fail report on a running job by its holder:
    through [update_job_status], [retries] is incremented by one and
    [completed_at] set; the job returns to queued with [reserved_by] and
    [reserved_at] cleared when the incremented count is below 3, and is
    failed, with the error when a message comes with the report, when the
    incremented count has reached 3.  Through the endpoint [mark_fail] the
    job is failed with the error, [completed_at] set and [retries]
    incremented, whatever the count. *)
Theorem fail_report_requeues_below_incremented_ceiling
    (job_id : Z) (job : Job) (worker_id : string) (result_data : option Json)
    (error_message : option string) (body_error_message : string) (now : Z)
    (db : Jobs) :
  db !! job_id = Some job ->
  status job = RUNNING ->
  reserved_by job = Some worker_id ->
  (exists job',
     JobOrchestrationService.update_job_status job_id FAILED worker_id
       result_data error_message now db = (true, <[job_id := job']> db)
     /\ retries job' = retries job + 1
     /\ completed_at job' = Some now
     /\ (retries job + 1 < 3 ->
         status job' = QUEUED /\ reserved_by job' = None
         /\ reserved_at job' = None)
     /\ (3 <= retries job + 1 ->
         status job' = FAILED
         /\ (truthy_str error_message = true ->
             Model.error_message job' = error_message)))
  /\ (exists job',
        Workers.mark_fail job_id body_error_message (Some worker_id) now db
          = (Workers.NoContent, <[job_id := job']> db)
        /\ status job' = FAILED
        /\ Model.error_message job' = Some body_error_message
        /\ completed_at job' = Some now
        /\ retries job' = retries job + 1
        /\ reserved_by job' = Some worker_id).
Proof.
  intros Hlook Hrun Hres. split.
  - eexists. split.
    + apply update_job_status_accepts; [exact Hlook|exact Hres|].
      rewrite Hrun. reflexivity.
    + pose proof (update_job_failed_spec result_data error_message now job) as S.
      simpl in S. destruct S as (S1 & S2 & _ & S4 & S5 & S6).
      split; [exact S1|]. split; [exact S2|]. split; [exact S5|].
      intros Hge. split; [apply S6, Hge|exact S4].
  - unfold Workers.mark_fail. rewrite Hlook, bool_decide_eq_false_2.
    + eexists. split; [reflexivity|]. simpl. auto.
    + intros Hne. apply Hne, Hres.
Qed.

(** Job A, claimed by [w1], fails for the first time: queued again with
    one retry. *)
Lemma fail_report_requeues_below_incremented_ceiling_witness :
  Samples.in_progress !! 1 = Some (Samples.held "w1" 0 Samples.job_A)
  /\ exists job',
       JobOrchestrationService.update_job_status 1 FAILED "w1" None
         (Some "out of memory"%string) 50 Samples.in_progress
       = (true, <[1 := job']> Samples.in_progress)
       /\ retries job' = 0 + 1
       /\ completed_at job' = Some 50
       /\ (0 + 1 < 3 ->
           status job' = QUEUED /\ reserved_by job' = None
           /\ reserved_at job' = None)
       /\ (3 <= 0 + 1 ->
           status job' = FAILED
           /\ (truthy_str (Some "out of memory"%string) = true ->
               Model.error_message job' = Some "out of memory"%string)).
Proof.
  assert (Samples.in_progress !! 1 = Some (Samples.held "w1" 0 Samples.job_A))
    as H by (vm_compute; reflexivity).
  split; [exact H|].
  exact (proj1 (fail_report_requeues_below_incremented_ceiling
                  1 (Samples.held "w1" 0 Samples.job_A) "w1" None
                  (Some "out of memory"%string) "out of memory" 50
                  Samples.in_progress H eq_refl eq_refl)).
Defined.

(** ** C5: terminal states and the retry count *)

Section Terminal.

Import JobOrchestrationService.

Lemma update_job_retries (new_status : JobStatus) (result_data : option Json)
    (error_message : option string) (now : Z) (j : Job) :
  retries j <= retries (update_job new_status result_data error_message now j).
Proof.
  unfold update_job.
  destruct new_status; simpl;
    repeat match goal with
           | |- context [if ?b then _ else _] => destruct b; simpl
           end; lia.
Qed.

Lemma job_step_retries (now : Z) (op : Op) (j j' : Job) :
  job_step now op j j' -> retries j <= retries j'.
Proof.
  intros Hstep. destruct Hstep; simpl; try lia.
  - apply update_job_retries.
  - unfold recover. simpl. destruct (3 <=? retries j + 1); simpl; lia.
Qed.

Lemma no_transition_from_terminal (current new : JobStatus) :
  current = COMPLETED \/ current = CANCELLED ->
  _is_valid_status_transition current new = false.
Proof.
  intros [-> | ->]; unfold _is_valid_status_transition; simpl;
    first [reflexivity | apply bool_decide_eq_false_2; intros H; inversion H].
Qed.

(** Requests other than the two reports leave the status of a completed
    or cancelled row. *)
Lemma job_step_terminal (now : Z) (op : Op) (j j' : Job) :
  job_step now op j j' ->
  is_report op = false ->
  status j = COMPLETED \/ status j = CANCELLED ->
  status j' = status j.
Proof.
  intros Hstep Hop Hterm.
  destruct Hstep; simpl in *; try discriminate; try reflexivity.
  - destruct Hterm; congruence.
  - rewrite (no_transition_from_terminal _ new_status Hterm) in H0. discriminate.
  - apply stuck_spec in H. destruct H as [H _]. destruct Hterm; congruence.
Qed.

(** No request whose caller carries a worker identity writes a row that
    is neither queued nor running and has no holder. *)
Lemma job_step_needs_holder (now : Z) (op : Op) (j j' : Job) :
  job_step now op j j' ->
  anonymous op = false ->
  reserved_by j = None ->
  status j = QUEUED \/ status j = RUNNING.
Proof.
  intros Hstep Hop Hnone.
  destruct Hstep; simpl in *; subst; try rewrite Hnone in Hop;
    try discriminate; try congruence; auto.
  apply stuck_spec in H. tauto.
Qed.

End Terminal.

(** C5, as stated, fails.  Job A is claimed by [w1] and reported failed
    three times: it is failed with 3 retries.  [update_job_status] then
    accepts the transition to queued from its holder, and the next claim
    makes the job running again. *)
Lemma exhausted_job_is_queued_and_claimed_again :
  let failed := run_all Samples.three_failures Samples.only_A in
  let requeued := run (UpdateStatus 1 QUEUED "w1" None None) 70 failed in
  let reclaimed := run (Claim true ∅ (Some "w2"%string) "gpu") 80 requeued in
  (status <$> failed !! 1) = Some FAILED
  /\ (retries <$> failed !! 1) = Some 3
  /\ (status <$> requeued !! 1) = Some QUEUED
  /\ (status <$> reclaimed !! 1) = Some RUNNING
  /\ (reserved_by <$> reclaimed !! 1) = Some (Some "w2"%string).
Proof. vm_compute. repeat split; reflexivity. Qed.

(** The identity of the caller matters: job A, failed by the sweep, has
    no holder, and a report made with a token without [worker_id] passes
    the holder check and completes it. *)
Lemma report_without_identity_passes_holder_check :
  fst (Workers.mark_done 1 ∅ None 9500 Samples.timed_out) = Workers.NoContent
  /\ (status <$> snd (Workers.mark_done 1 ∅ None 9500 Samples.timed_out) !! 1)
     = Some COMPLETED.
Proof. vm_compute. split; reflexivity. Qed.

(** C5, amended.  Under every request the retry count of a job does not
    decrease.  A completed or cancelled job keeps its status under every
    request other than the reports [mark_done] and [mark_fail]
    ([update_job_status] rejects every transition out of these two
    states).  A completed, cancelled or failed job without a holder is
    left as it is by every request whose caller carries a worker
    identity (a report made with a token without [worker_id] passes the
    holder check of a job without a holder).  A failed job, whatever its
    retry count, is returned to queued when its holder asks
    [update_job_status] for it. *)
Theorem terminal_status_and_retries
    (op : Op) (now : Z) (db : Jobs) (id : Z) (j : Job) :
  db !! id = Some j ->
  (exists j',
     run op now db !! id = Some j'
     /\ retries j <= retries j'
     /\ (is_report op = false ->
         status j = COMPLETED \/ status j = CANCELLED ->
         status j' = status j)
     /\ (anonymous op = false ->
         reserved_by j = None ->
         status j = COMPLETED \/ status j = CANCELLED \/ status j = FAILED ->
         j' = j))
  /\ (forall worker_id result_data error_message,
        status j = FAILED ->
        reserved_by j = Some worker_id ->
        JobOrchestrationService.update_job_status id QUEUED worker_id
          result_data error_message now db
        = (true, <[id := set_updated_at now (set_status QUEUED j)]> db)).
Proof.
  intros Hlook. split.
  - destruct (run_lookup_some op now db id j Hlook) as (j' & Hrun & Hstep).
    exists j'. split; [exact Hrun|].
    destruct Hstep as [->|Hstep].
    + split; [lia|]. auto.
    + split; [exact (job_step_retries _ _ _ _ Hstep)|]. split.
      * exact (job_step_terminal _ _ _ _ Hstep).
      * intros Hop Hnone Hterm.
        destruct (job_step_needs_holder _ _ _ _ Hstep Hop Hnone) as [Hs|Hs];
          rewrite Hs in Hterm; destruct Hterm as [?|[?|?]]; discriminate.
  - intros worker_id result_data error_message Hfailed Hres.
    rewrite (update_job_status_accepts
               id QUEUED worker_id result_data error_message now db j Hlook Hres)
      by (rewrite Hfailed; reflexivity).
    reflexivity.
Qed.

Lemma terminal_status_and_retries_witness :
  (exists j',
     run (UpdateStatus 1 QUEUED "w1" None None) 90 MoreSamples.finished !! 1
     = Some j'
     /\ retries MoreSamples.finished_A <= retries j'
     /\ status j' = COMPLETED)
  /\ run (Done 1 ∅ (Some "w1"%string)) 9500 Samples.timed_out !! 1
     = Some MoreSamples.timed_out_A
  /\ JobOrchestrationService.update_job_status 1 QUEUED "w1" None None 70
       MoreSamples.failed_thrice
     = (true,
        <[1 := set_updated_at 70 (set_status QUEUED MoreSamples.exhausted_A)]>
          MoreSamples.failed_thrice).
Proof.
  assert (MoreSamples.finished !! 1 = Some MoreSamples.finished_A)
    as H1 by (vm_compute; reflexivity).
  assert (Samples.timed_out !! 1 = Some MoreSamples.timed_out_A)
    as H2 by (vm_compute; reflexivity).
  assert (MoreSamples.failed_thrice !! 1 = Some MoreSamples.exhausted_A)
    as H3 by (vm_compute; reflexivity).
  split; [|split].
  - destruct (terminal_status_and_retries
                (UpdateStatus 1 QUEUED "w1" None None) 90 MoreSamples.finished
                1 MoreSamples.finished_A H1)
      as [(j' & Hrun & Hretries & Hkeep & _) _].
    exists j'. split; [exact Hrun|]. split; [exact Hretries|].
    exact (Hkeep eq_refl (or_introl eq_refl)).
  - destruct (terminal_status_and_retries
                (Done 1 ∅ (Some "w1"%string)) 9500 Samples.timed_out
                1 MoreSamples.timed_out_A H2)
      as [(j' & Hrun & _ & _ & Hsame) _].
    rewrite (Hsame eq_refl eq_refl (or_intror (or_intror eq_refl))) in Hrun.
    exact Hrun.
  - exact (proj2 (terminal_status_and_retries
                    (Sweep 30) 70 MoreSamples.failed_thrice
                    1 MoreSamples.exhausted_A H3)
             "w1"%string None None eq_refl eq_refl).
Defined.

(** ** C7: the holder of a job *)

Section Holder.

Import JobOrchestrationService.

(** A row a request has written, if running, has a holder, unless the
    request is a claim made with a token without [worker_id]. *)
Lemma job_step_running_is_held (now : Z) (op : Op) (j j' : Job) :
  job_step now op j j' ->
  claims_anonymously op = false ->
  (status j = RUNNING -> reserved_by j <> None) ->
  status j' = RUNNING -> reserved_by j' <> None.
Proof.
  intros Hstep Hop Hheld Hrun. destruct Hstep; simpl in *; try discriminate.
  - destruct worker_id; [discriminate|discriminate Hop].
  - exact (Hheld Hrun).
  - unfold update_job in *.
    destruct new_status; simpl in *;
      repeat match type of Hrun with
             | context [if ?b then _ else _] => destruct b; simpl in *
             end; try discriminate; congruence.
  - unfold recover in *. destruct (3 <=? _); simpl in *; discriminate.
Qed.

(** A row that leaves running for queued loses its holder. *)
Lemma job_step_requeue_clears (now : Z) (op : Op) (j j' : Job) :
  job_step now op j j' ->
  status j = RUNNING -> status j' = QUEUED ->
  reserved_by j' = None /\ reserved_at j' = None.
Proof.
  intros Hstep Hrun Hq. destruct Hstep; simpl in *; try congruence.
  - unfold update_job in *. rewrite Hrun in H0.
    destruct new_status; try discriminate; simpl in *;
      repeat match type of Hq with
             | context [if ?b then _ else _] => destruct b; simpl in *
             end; try discriminate; auto.
  - unfold recover in *. destruct (3 <=? _); simpl in *; auto.
Qed.

(** A row that a request other than the sweep takes from running to
    completed or failed keeps its holder. *)
Lemma job_step_report_keeps_holder (now : Z) (op : Op) (j j' : Job) :
  job_step now op j j' ->
  is_sweep op = false ->
  status j = RUNNING ->
  status j' = COMPLETED \/ status j' = FAILED ->
  reserved_by j' = reserved_by j.
Proof.
  intros Hstep Hop Hrun Hto.
  destruct Hstep; simpl in *; try discriminate;
    try reflexivity; try congruence; try (destruct Hto; discriminate).
  unfold update_job in *. rewrite Hrun in H0.
  destruct new_status; try discriminate; simpl in *;
    repeat match type of Hto with
           | context [if ?b then _ else _] => destruct b; simpl in *
           end;
    try (destruct Hto; discriminate);
    repeat match goal with
           | |- context [if ?b then _ else _] => destruct b; simpl
           end;
    reflexivity.
Qed.

(** A claim writes the identity of its caller, whatever it is, in the
    row it serves. *)
Lemma router_claim_holder (has_target : bool) (locked : gset Z)
    (worker_id : Workers.Identity) (tgt : string) (now : Z) (db db' : Jobs)
    (id : Z) (job : Job) :
  Workers.claim_job has_target locked worker_id tgt now db
  = (Workers.JobBody id job, db') ->
  status job = RUNNING /\ reserved_by job = worker_id
  /\ db' !! id = Some job.
Proof.
  unfold Workers.claim_job.
  destruct (Workers.claim_query has_target locked tgt db) as [[id0 job0]|];
    [|discriminate].
  intros H. injection H as <- <- <-.
  rewrite lookup_insert_eq. auto.
Qed.

(** In the sample table a job has a holder if and only if it is
    running. *)
Lemma in_progress_held_iff_running : held_iff_running Samples.in_progress.
Proof.
  intros id j Hlook. unfold Samples.in_progress in Hlook.
  apply lookup_insert_Some in Hlook. destruct Hlook as [[<- <-]|[_ Hlook]].
  - simpl. split; [contradiction|discriminate].
  - apply lookup_insert_Some in Hlook. destruct Hlook as [[<- <-]|[_ Hlook]].
    + simpl. split; [reflexivity|discriminate].
    + rewrite lookup_empty in Hlook. discriminate.
Qed.

End Holder.

(** C7, as stated, fails.  With job A running, held by [w1], and job B
    queued, every job has a holder if and only if it is running.  After
    [w1] reports job A done, job A is completed and [reserved_by] is
    still [w1]. *)
Lemma completion_keeps_reserved_by :
  held_iff_running Samples.in_progress
  /\ ~ held_iff_running
         (run (Done 1 {["url" := "s3://out"]} (Some "w1"%string)) 50
            Samples.in_progress).
Proof.
  split; [exact in_progress_held_iff_running|].
  intros Hinv.
  assert (run (Done 1 {["url" := "s3://out"]} (Some "w1"%string)) 50
            Samples.in_progress !! 1
          = Some (set_completed_at (Some 50) (set_error_message None
                    (set_result_json (Some {["url" := "s3://out"]})
                       (set_status COMPLETED
                          (Samples.held "w1" 0 Samples.job_A))))))
    as Hlook by (vm_compute; reflexivity).
  apply Hinv in Hlook. simpl in Hlook. destruct Hlook as [Hrun _].
  discriminate Hrun. discriminate.
Qed.

(** C7, amended.  A claim writes the identity of its caller in
    [reserved_by]; when the token of the caller carries no [worker_id]
    the claimed job is running and [reserved_by] is empty.  Every other
    request, and every claim whose caller carries a worker identity,
    preserves that a running job has a holder.  A job that leaves
    running for queued (a fail report through [update_job_status] below
    the ceiling, or the sweep) has [reserved_by] and [reserved_at]
    cleared, and every job the sweep recovers has [reserved_by] cleared;
    a job that a report takes from running to completed or failed
    ([mark_done], [mark_fail], [update_job_status]) keeps its
    [reserved_by]. *)
Theorem running_jobs_are_held_and_requeue_clears_holder
    (op : Op) (now : Z) (db : Jobs) :
  (forall has_target locked worker_id tgt id job db',
     Workers.claim_job has_target locked worker_id tgt now db
     = (Workers.JobBody id job, db') ->
     status job = RUNNING /\ reserved_by job = worker_id
     /\ db' !! id = Some job)
  /\ (claims_anonymously op = false ->
      running_is_held db -> running_is_held (run op now db))
  /\ (forall id j j',
        db !! id = Some j -> run op now db !! id = Some j' ->
        status j = RUNNING ->
        (status j' = QUEUED -> reserved_by j' = None /\ reserved_at j' = None)
        /\ (is_sweep op = true -> j' <> j -> reserved_by j' = None)
        /\ (is_sweep op = false ->
            status j' = COMPLETED \/ status j' = FAILED ->
            reserved_by j' = reserved_by j)).
Proof.
  split; [|split].
  - intros has_target locked worker_id tgt id job db'.
    apply router_claim_holder.
  - intros Hop Hinv id j' Hlook' Hrun.
    destruct (run_lookup_inv _ _ _ _ _ Hlook') as (j & Hlook & [->|Hstep]).
    + exact (Hinv _ _ Hlook Hrun).
    + exact (job_step_running_is_held _ _ _ _ Hstep Hop (Hinv _ _ Hlook) Hrun).
  - intros id j j' Hlook Hlook' Hrun.
    destruct (run_lookup_some op now db id j Hlook) as (j'' & Hrun' & Hstep).
    rewrite Hlook' in Hrun'. injection Hrun' as <-.
    destruct Hstep as [->|Hstep].
    + split; [congruence|]. split; [congruence|].
      intros _ _; reflexivity.
    + split; [exact (job_step_requeue_clears _ _ _ _ Hstep Hrun)|].
      split; [|intros Hop; exact (job_step_report_keeps_holder _ _ _ _ Hstep Hop Hrun)].
      intros Hop _. destruct Hstep; try discriminate.
      unfold JobOrchestrationService.recover.
      destruct (3 <=? _); reflexivity.
Qed.

Lemma running_jobs_are_held_and_requeue_clears_holder_witness :
  (status (set_started_at (Some 50) (set_reserved_at (Some 50)
             (set_reserved_by None (set_status RUNNING Samples.job_A))))
   = RUNNING
   /\ reserved_by (set_started_at (Some 50) (set_reserved_at (Some 50)
                     (set_reserved_by None (set_status RUNNING Samples.job_A))))
      = None)
  /\ running_is_held
       (run (Claim true ∅ (Some "w2"%string) "gpu") 50 Samples.in_progress)
  /\ (reserved_by
        (JobOrchestrationService.update_job FAILED None
           (Some "out of memory"%string) 50 (Samples.held "w1" 0 Samples.job_A))
      = None
      /\ reserved_at
           (JobOrchestrationService.update_job FAILED None
              (Some "out of memory"%string) 50
              (Samples.held "w1" 0 Samples.job_A))
         = None)
  /\ reserved_by
       (JobOrchestrationService.recover 9000 (Samples.held "w1" 0 Samples.job_A))
     = None
  /\ reserved_by
       (set_completed_at (Some 50) (set_error_message None
          (set_result_json (Some {["url" := "s3://out"]})
             (set_status COMPLETED (Samples.held "w1" 0 Samples.job_A)))))
     = reserved_by (Samples.held "w1" 0 Samples.job_A).
Proof.
  assert (running_is_held Samples.in_progress) as H.
  { intros id j Hlook Hrun.
    destruct (in_progress_held_iff_running id j Hlook) as [_ Hheld].
    exact (Hheld Hrun). }
  assert (Samples.in_progress !! 1 = Some (Samples.held "w1" 0 Samples.job_A))
    as Hlook by (vm_compute; reflexivity).
  split; [|split; [|split; [|split]]].
  - destruct (proj1 (running_jobs_are_held_and_requeue_clears_holder
                       (Dryrun true "gpu") 50 Samples.only_A)
                true ∅ None "gpu"%string 1
                (set_started_at (Some 50) (set_reserved_at (Some 50)
                   (set_reserved_by None (set_status RUNNING Samples.job_A))))
                (<[1 := set_started_at (Some 50) (set_reserved_at (Some 50)
                          (set_reserved_by None
                             (set_status RUNNING Samples.job_A)))]>
                   Samples.only_A))
      as (Hs & Hr & _); [vm_compute; reflexivity|].
    split; [exact Hs|exact Hr].
  - exact (proj1 (proj2 (running_jobs_are_held_and_requeue_clears_holder
                           (Claim true ∅ (Some "w2"%string) "gpu") 50
                           Samples.in_progress)) eq_refl H).
  - assert (run (UpdateStatus 1 FAILED "w1" None (Some "out of memory"%string))
              50 Samples.in_progress !! 1
            = Some (JobOrchestrationService.update_job FAILED None
                      (Some "out of memory"%string) 50
                      (Samples.held "w1" 0 Samples.job_A)))
      as Hlook' by (vm_compute; reflexivity).
    exact (proj1 (proj2 (proj2
             (running_jobs_are_held_and_requeue_clears_holder
                (UpdateStatus 1 FAILED "w1" None (Some "out of memory"%string))
                50 Samples.in_progress))
             1 _ _ Hlook Hlook' eq_refl) eq_refl).
  - assert (run (Sweep 30) 9000 Samples.in_progress !! 1
            = Some (JobOrchestrationService.recover 9000
                      (Samples.held "w1" 0 Samples.job_A)))
      as Hlook' by (vm_compute; reflexivity).
    apply (proj1 (proj2 (proj2 (proj2
             (running_jobs_are_held_and_requeue_clears_holder
                (Sweep 30) 9000 Samples.in_progress))
             1 _ _ Hlook Hlook' eq_refl)) eq_refl).
    intros Heq. apply (f_equal status) in Heq. discriminate Heq.
  - assert (run (Done 1 {["url" := "s3://out"]} (Some "w1"%string)) 50
              Samples.in_progress !! 1
            = Some (set_completed_at (Some 50) (set_error_message None
                      (set_result_json (Some {["url" := "s3://out"]})
                         (set_status COMPLETED
                            (Samples.held "w1" 0 Samples.job_A))))))
      as Hlook' by (vm_compute; reflexivity).
    exact (proj2 (proj2 (proj2 (proj2
             (running_jobs_are_held_and_requeue_clears_holder
                (Done 1 {["url" := "s3://out"]} (Some "w1"%string))
                50 Samples.in_progress))
             1 _ _ Hlook Hlook' eq_refl))
             eq_refl (or_introl eq_refl)).
Defined.

(** ** C8, C9: the fleet controller *)

Section FleetController.

Import VastService.

Lemma truthy_str_spec (s : string) :
  truthy_str (Some s) = true <-> s <> EmptyString.
Proof. destruct s; simpl; split; congruence. Qed.

Lemma _headers_some (settings : Settings) :
  VAST_AI_API_KEY settings <> EmptyString ->
  _headers settings = Some ("Bearer " ++ VAST_AI_API_KEY settings)%string.
Proof.
  intros Hkey. unfold _headers.
  destruct (String.eqb_spec (VAST_AI_API_KEY settings) EmptyString); [contradiction|].
  reflexivity.
Qed.

(** The status check adds its request, when it makes one, and nothing
    else; it does not touch the recorded id. *)
Lemma _is_instance_running_world settings provider instance_id (w : World) :
  active_instance_id (snd (_is_instance_running settings provider instance_id w))
  = active_instance_id w.
Proof.
  unfold _is_instance_running, request.
  destruct (_headers settings); [|reflexivity].
  destruct (provider _) as [|code body]; [reflexivity|].
  destruct (negb _); [reflexivity|]. destruct body; reflexivity.
Qed.

Lemma _is_instance_running_healthy settings provider instance_id (w : World) :
  healthy settings provider instance_id ->
  _is_instance_running settings provider instance_id w
  = (true, mkWorld (active_instance_id w) (calls w ++ [GetInstance instance_id])).
Proof.
  intros (Hkey & data & Hreply & Hrun).
  unfold _is_instance_running, request.
  rewrite (_headers_some _ Hkey), Hreply. simpl.
  unfold reported_state in Hrun. rewrite Hrun. reflexivity.
Qed.

Lemma _is_instance_running_failed settings provider instance_id (w : World) :
  check_failed provider instance_id ->
  fst (_is_instance_running settings provider instance_id w) = false.
Proof.
  unfold check_failed, _is_instance_running, request.
  destruct (_headers settings); [|reflexivity].
  destruct (provider _) as [|code body]; [reflexivity|].
  intros [Hcode| ->].
  - apply Z.eqb_neq in Hcode. rewrite Hcode. reflexivity.
  - destruct (negb _); reflexivity.
Qed.

(** [ensure_gpu_instance] either leaves the recorded id, returning
    nothing or the recorded id, or records the id of an instance it has
    created. *)
Lemma ensure_gpu_instance_world settings provider (w : World) :
  let r := ensure_gpu_instance settings provider w in
  (active_instance_id (snd r) = active_instance_id w
   /\ (fst r = None \/ fst r = active_instance_id w))
  \/ exists status_code data,
       provider (create_call settings) = Answered status_code (Some data)
       /\ raise_for_status status_code = false
       /\ created_id data <> EmptyString
       /\ fst r = Some (created_id data)
       /\ active_instance_id (snd r) = Some (created_id data).
Proof.
  unfold ensure_gpu_instance, get_active_instance_id.
  set (chk := match active_instance_id w with
              | Some id =>
                  if truthy_str (active_instance_id w)
                  then _is_instance_running settings provider id w
                  else (false, w)
              | None => (false, w)
              end).
  assert (active_instance_id (snd chk) = active_instance_id w) as Hchk.
  { unfold chk. destruct (active_instance_id w) as [id|] eqn:E; [|exact E].
    destruct (truthy_str _); [|exact E].
    rewrite _is_instance_running_world. exact E. }
  destruct chk as [running w1]. simpl in Hchk.
  destruct running; [left; simpl; auto|].
  destruct (_headers settings); [|left; simpl; auto].
  unfold request. fold (create_call settings).
  destruct (provider (create_call settings)) as [|code body] eqn:Hreply;
    [left; simpl; auto|].
  destruct (raise_for_status code) eqn:Hcode; [left; simpl; auto|].
  destruct body as [data|]; [|left; simpl; auto].
  fold (created_id data).
  destruct (String.eqb_spec (created_id data) EmptyString); [left; simpl; auto|].
  right. exists code, data. simpl.
  unfold set_active_instance_id.
  rewrite (proj2 (truthy_str_spec _)) by assumption. auto.
Qed.

(** Provisioning when the status check did not find the instance
    running. *)
Lemma ensure_gpu_instance_creates settings provider (w : World)
    (instance_id : string) :
  creates settings provider instance_id ->
  (match active_instance_id w with
   | Some id => id = EmptyString
   | None => True
   end) ->
  ensure_gpu_instance settings provider w
  = (Some instance_id,
     mkWorld (Some instance_id) (calls w ++ [create_call settings])).
Proof.
  intros (Hkey & Hid & code & data & Hreply & Hcode & Hcreated) Hnone.
  unfold ensure_gpu_instance, get_active_instance_id.
  assert (match active_instance_id w with
          | Some id =>
              if truthy_str (active_instance_id w)
              then _is_instance_running settings provider id w
              else (false, w)
          | None => (false, w)
          end = (false, w)) as ->.
  { destruct (active_instance_id w) as [id|]; [|reflexivity].
    subst id. reflexivity. }
  rewrite (_headers_some _ Hkey). unfold request.
  fold (create_call settings). rewrite Hreply, Hcode.
  fold (created_id data). rewrite Hcreated.
  destruct (String.eqb_spec instance_id EmptyString); [contradiction|].
  unfold set_active_instance_id.
  rewrite (proj2 (truthy_str_spec _)) by assumption. reflexivity.
Qed.

Lemma ensure_gpu_instance_healthy settings provider (w : World)
    (instance_id : string) :
  active_instance_id w = Some instance_id ->
  instance_id <> EmptyString ->
  healthy settings provider instance_id ->
  ensure_gpu_instance settings provider w
  = (Some instance_id,
     mkWorld (Some instance_id) (calls w ++ [GetInstance instance_id])).
Proof.
  intros Hactive Hid Hhealthy.
  unfold ensure_gpu_instance, get_active_instance_id.
  rewrite Hactive, (proj2 (truthy_str_spec _) Hid).
  rewrite (_is_instance_running_healthy _ _ _ _ Hhealthy), Hactive.
  reflexivity.
Qed.

Lemma _is_instance_running_true settings provider instance_id (w : World) :
  fst (_is_instance_running settings provider instance_id w) = true ->
  healthy settings provider instance_id.
Proof.
  unfold _is_instance_running, request, healthy, _headers.
  destruct (String.eqb_spec (VAST_AI_API_KEY settings) EmptyString);
    [discriminate|].
  destruct (provider _) as [|code body] eqn:Hreply; [discriminate|].
  destruct (Z.eqb_spec code 200) as [->|]; simpl; [|discriminate].
  destruct body as [data|]; [|discriminate]. simpl.
  intros Hrun. split; [assumption|].
  exists data. split; [reflexivity|exact Hrun].
Qed.

(** When the creation fails and no recorded instance is found running,
    [ensure_gpu_instance] returns [None]. *)
Lemma ensure_gpu_instance_create_failed settings provider (w : World) :
  create_failed settings provider ->
  ~ recorded_healthy settings provider w ->
  fst (ensure_gpu_instance settings provider w) = None.
Proof.
  intros Hfail Hnot. unfold ensure_gpu_instance, get_active_instance_id.
  set (chk := match active_instance_id w with
              | Some id =>
                  if truthy_str (active_instance_id w)
                  then _is_instance_running settings provider id w
                  else (false, w)
              | None => (false, w)
              end).
  assert (fst chk = false) as Hchk.
  { unfold chk. destruct (active_instance_id w) as [id|] eqn:E; [|reflexivity].
    destruct (truthy_str (Some id)) eqn:Ht; [|reflexivity].
    destruct (fst (_is_instance_running settings provider id w)) eqn:Hr;
      [|reflexivity].
    exfalso. apply Hnot. exists id. split; [exact E|]. split.
    - apply truthy_str_spec. exact Ht.
    - exact (_is_instance_running_true _ _ _ _ Hr). }
  destruct chk as [running w1]. simpl in Hchk. subst running.
  destruct (_headers settings); [|reflexivity].
  unfold request. fold (create_call settings).
  unfold create_failed in Hfail.
  destruct (provider (create_call settings)) as [|code body]; [reflexivity|].
  destruct Hfail as [-> | ->]; [reflexivity|].
  destruct (raise_for_status code); reflexivity.
Qed.

(** A stop request that the provider does not accept: [stop_instance]
    returns [False] and the recorded id stays. *)
Lemma stop_instance_refused settings provider (w : World)
    (instance_id : string) :
  refused provider (StopInstance instance_id) ->
  fst (stop_instance settings provider instance_id w) = false
  /\ active_instance_id (snd (stop_instance settings provider instance_id w))
     = active_instance_id w.
Proof.
  unfold refused, stop_instance, request.
  destruct (_headers settings); [|split; reflexivity].
  destruct (provider (StopInstance instance_id)) as [|code body];
    [split; reflexivity|].
  intros ->. split; reflexivity.
Qed.

Lemma destroy_instance_refused settings provider (w : World)
    (instance_id : string) :
  refused provider (DestroyInstance instance_id) ->
  fst (destroy_instance settings provider instance_id w) = false
  /\ active_instance_id (snd (destroy_instance settings provider instance_id w))
     = active_instance_id w.
Proof.
  unfold refused, destroy_instance, request.
  destruct (_headers settings); [|split; reflexivity].
  destruct (provider (DestroyInstance instance_id)) as [|code body];
    [split; reflexivity|].
  intros ->. split; reflexivity.
Qed.

(** [maybe_shutdown_gpu] sends one request, [shutdown_call]; when the
    provider does not accept it the recorded id stays. *)
Lemma maybe_shutdown_gpu_refused settings provider (idle_seconds : Z)
    (w : World) (instance_id : string) :
  active_instance_id w = Some instance_id ->
  refused provider (shutdown_call settings instance_id) ->
  active_instance_id (snd (maybe_shutdown_gpu settings provider idle_seconds w))
  = active_instance_id w.
Proof.
  intros Hactive. unfold maybe_shutdown_gpu, get_active_instance_id, shutdown_call.
  rewrite Hactive.
  destruct (negb _); [intros _; exact Hactive|].
  destruct (_ <? _); [intros _; exact Hactive|].
  destruct (String.eqb (stop_mode settings) "destroy"); intros Hfail; simpl.
  - rewrite (proj2 (destroy_instance_refused settings provider w _ Hfail)).
    exact Hactive.
  - rewrite (proj2 (stop_instance_refused settings provider w _ Hfail)).
    exact Hactive.
Qed.

End FleetController.

(** C8, as stated, fails.  Instance A is on record; the status check of
    A times out; the provider accepts to create instance B.
    [ensure_gpu_instance] takes A as not running, provisions B and
    records B in place of A. *)
Lemma failed_status_check_provisions_over_recorded_instance :
  VastService.check_failed Samples.unreachable_status "A"
  /\ VastService.ensure_gpu_instance Samples.settings
       Samples.unreachable_status Samples.fleet_A
     = (Some "B"%string,
        VastService.mkWorld (Some "B"%string)
          [VastService.GetInstance "A";
           VastService.CreateInstance (Some "worker:latest"%string) "RTX_4090"]).
Proof. split; [exact I|vm_compute; reflexivity]. Qed.

(** C8, amended.  When the request that creates an instance fails (the
    client raises, the answer is not a 2xx, or its body is not JSON),
    [ensure_gpu_instance] leaves the recorded id as it is and returns
    [None], unless the status check found the recorded instance running,
    in which case no instance is requested and the recorded id is
    returned.  When the provider does not accept a stop or a destroy
    request (the client raises, or the answer is not 200, 202 or 204),
    [stop_instance] and [destroy_instance] return [False] and leave the
    recorded id as it is, and so does [maybe_shutdown_gpu], which sends
    the one request its mode selects and returns nothing.  When the
    status check of the recorded instance fails, the instance is taken
    as not running: [ensure_gpu_instance] requests a new instance and,
    when that succeeds, records the new id in place of the old one. *)
Theorem provider_failure_and_fleet_state
    (settings : VastService.Settings) (provider : VastService.Provider)
    (w : VastService.World) :
  (VastService.create_failed settings provider ->
   let r := VastService.ensure_gpu_instance settings provider w in
   VastService.active_instance_id (snd r) = VastService.active_instance_id w
   /\ (fst r = None \/ fst r = VastService.active_instance_id w)
   /\ (~ VastService.recorded_healthy settings provider w -> fst r = None))
  /\ (forall instance_id,
        (VastService.refused provider (VastService.StopInstance instance_id) ->
         let r := VastService.stop_instance settings provider instance_id w in
         fst r = false
         /\ VastService.active_instance_id (snd r)
            = VastService.active_instance_id w)
        /\ (VastService.refused provider
              (VastService.DestroyInstance instance_id) ->
            let r := VastService.destroy_instance settings provider
                       instance_id w in
            fst r = false
            /\ VastService.active_instance_id (snd r)
               = VastService.active_instance_id w))
  /\ (forall idle_seconds instance_id,
        VastService.active_instance_id w = Some instance_id ->
        VastService.refused provider
          (VastService.shutdown_call settings instance_id) ->
        VastService.active_instance_id
          (snd (VastService.maybe_shutdown_gpu settings provider idle_seconds w))
        = VastService.active_instance_id w)
  /\ (forall recorded instance_id,
        VastService.active_instance_id w = Some recorded ->
        recorded <> EmptyString ->
        VastService.check_failed provider recorded ->
        VastService.creates settings provider instance_id ->
        VastService.ensure_gpu_instance settings provider w
        = (Some instance_id,
           VastService.mkWorld (Some instance_id)
             (VastService.calls w
              ++ [VastService.GetInstance recorded;
                  VastService.create_call settings]))).
Proof.
  split; [|split; [|split]].
  - intros Hfail.
    assert (VastService.active_instance_id
              (snd (VastService.ensure_gpu_instance settings provider w))
            = VastService.active_instance_id w
            /\ (fst (VastService.ensure_gpu_instance settings provider w) = None
                \/ fst (VastService.ensure_gpu_instance settings provider w)
                   = VastService.active_instance_id w)) as [Hw Hr].
    { destruct (ensure_gpu_instance_world settings provider w)
        as [H|(code & data & Hreply & Hcode & _)]; [exact H|].
      unfold VastService.create_failed in Hfail. rewrite Hreply in Hfail.
      destruct Hfail; congruence. }
    split; [exact Hw|]. split; [exact Hr|].
    exact (ensure_gpu_instance_create_failed settings provider w Hfail).
  - intros instance_id. split.
    + exact (stop_instance_refused settings provider w instance_id).
    + exact (destroy_instance_refused settings provider w instance_id).
  - intros idle_seconds instance_id.
    exact (maybe_shutdown_gpu_refused settings provider idle_seconds w
             instance_id).
  - intros recorded instance_id Hactive Hrec Hcheck Hcreates.
    pose proof Hcreates as (Hkey & _).
    pose proof (_is_instance_running_failed settings provider recorded w Hcheck)
      as Hnot.
    assert (VastService._is_instance_running settings provider recorded w
            = (false, VastService.mkWorld (VastService.active_instance_id w)
                        (VastService.calls w ++ [VastService.GetInstance recorded])))
      as Hrun.
    { revert Hnot. unfold VastService._is_instance_running, VastService.request.
      rewrite (_headers_some _ Hkey).
      destruct (provider _) as [|code body]; [reflexivity|].
      destruct (negb _); [reflexivity|]. destruct body; simpl; [|reflexivity].
      intros ->. reflexivity. }
    destruct Hcreates as (_ & Hid & code & data & Hreply & Hcode & Hcreated).
    unfold VastService.ensure_gpu_instance, VastService.get_active_instance_id.
    rewrite Hactive, (proj2 (truthy_str_spec _) Hrec), Hrun.
    rewrite (_headers_some _ Hkey). unfold VastService.request.
    fold (VastService.create_call settings). rewrite Hreply, Hcode.
    fold (VastService.created_id data). rewrite Hcreated.
    destruct (String.eqb_spec instance_id EmptyString); [contradiction|].
    unfold VastService.set_active_instance_id.
    rewrite (proj2 (truthy_str_spec _)) by assumption.
    simpl. rewrite <- app_assoc. reflexivity.
Qed.

(** Instance A is on record.  The provider is down: nothing is
    provisioned, A stays on record and [ensure_gpu_instance] returns
    [None].  The provider answers 500 to the stop request:
    [stop_instance] returns [False] and [maybe_shutdown_gpu], in stop
    mode, leaves A on record.  The status check times out and the
    provider creates B: B is recorded in place of A. *)
Lemma provider_failure_and_fleet_state_witness :
  (VastService.ensure_gpu_instance Samples.settings Samples.down Samples.fleet_A
   = (None,
      VastService.mkWorld (Some "A"%string)
        [VastService.GetInstance "A";
         VastService.CreateInstance (Some "worker:latest"%string) "RTX_4090"]))
  /\ fst (VastService.stop_instance Samples.settings MoreSamples.refuses_stop
            "A" Samples.fleet_A) = false
  /\ VastService.active_instance_id
       (snd (VastService.maybe_shutdown_gpu Samples.settings
               MoreSamples.refuses_stop 500 Samples.fleet_A))
     = Some "A"%string
  /\ VastService.ensure_gpu_instance Samples.settings
       Samples.unreachable_status Samples.fleet_A
     = (Some "B"%string,
        VastService.mkWorld (Some "B"%string)
          ([] ++ [VastService.GetInstance "A";
                  VastService.create_call Samples.settings])).
Proof.
  split; [|split; [|split]].
  - assert (~ VastService.recorded_healthy Samples.settings Samples.down
                Samples.fleet_A) as Hnot.
    { intros (id & _ & _ & _ & data & Hreply & _). discriminate Hreply. }
    destruct (proj1 (provider_failure_and_fleet_state
                       Samples.settings Samples.down Samples.fleet_A) I)
      as (Hw & _ & Hr).
    specialize (Hr Hnot).
    destruct (VastService.ensure_gpu_instance Samples.settings Samples.down
                Samples.fleet_A) as [r w'] eqn:E.
    simpl in Hw, Hr. subst r. vm_compute in E. exact (eq_sym E).
  - assert (VastService.refused MoreSamples.refuses_stop
              (VastService.StopInstance "A")) as Hfail
      by (vm_compute; reflexivity).
    exact (proj1 (proj1 (proj1 (proj2 (provider_failure_and_fleet_state
                    Samples.settings MoreSamples.refuses_stop Samples.fleet_A))
                    "A"%string) Hfail)).
  - assert (VastService.refused MoreSamples.refuses_stop
              (VastService.shutdown_call Samples.settings "A")) as Hfail
      by (vm_compute; reflexivity).
    exact (proj1 (proj2 (proj2 (provider_failure_and_fleet_state
                    Samples.settings MoreSamples.refuses_stop Samples.fleet_A)))
             500 "A"%string eq_refl Hfail).
  - assert (VastService.creates Samples.settings Samples.unreachable_status "B")
      as Hc.
    { split; [discriminate|]. split; [discriminate|].
      exists 200, ({["id" := "B"]} : Json). repeat split; reflexivity. }
    exact (proj2 (proj2 (proj2 (provider_failure_and_fleet_state
                    Samples.settings Samples.unreachable_status
                    Samples.fleet_A)))
             "A"%string "B"%string eq_refl ltac:(discriminate) I Hc).
Defined.

Section Idempotence.

Import VastService.

Lemma provisioned_app (cs cs' : list Call) :
  provisioned (cs ++ cs') = (provisioned cs + provisioned cs')%nat.
Proof. unfold provisioned. rewrite List.filter_app, length_app. reflexivity. Qed.

Lemma maybe_shutdown_gpu_below_threshold settings provider
    (idle_seconds : Z) (w : World) :
  idle_seconds < idle_timeout settings ->
  maybe_shutdown_gpu settings provider idle_seconds w = (tt, w).
Proof.
  intros Hidle. unfold maybe_shutdown_gpu.
  destruct (get_active_instance_id w) as [instance_id|]; [|reflexivity].
  destruct (negb _); [reflexivity|].
  apply Z.ltb_lt in Hidle. rewrite Hidle. reflexivity.
Qed.

End Idempotence.

(** C9. With a recorded instance that the status check finds running,
    [ensure_gpu_instance] returns its id, requests no instance and leaves
    the record as it is, a second time as the first.  From an empty
    record, a first call provisions an instance and a second call, the
    instance being found running, provisions none: one instance in all.
    [maybe_shutdown_gpu] with [idle_seconds] below the threshold in
    force ([GPU_IDLE_TIMEOUT_SEC], or 180 when that is 0) makes no
    request and leaves the record as it is. *)
Theorem ensure_twice_provisions_once_and_shutdown_waits
    (settings : VastService.Settings) (provider : VastService.Provider)
    (w : VastService.World) :
  (forall instance_id,
     VastService.active_instance_id w = Some instance_id ->
     instance_id <> EmptyString ->
     VastService.healthy settings provider instance_id ->
     let once := VastService.ensure_gpu_instance settings provider w in
     let twice := VastService.ensure_gpu_instance settings provider (snd once) in
     once = (Some instance_id,
             VastService.mkWorld (Some instance_id)
               (VastService.calls w ++ [VastService.GetInstance instance_id]))
     /\ twice = (Some instance_id,
                 VastService.mkWorld (Some instance_id)
                   (VastService.calls w
                    ++ [VastService.GetInstance instance_id;
                        VastService.GetInstance instance_id]))
     /\ VastService.provisioned (VastService.calls (snd twice))
        = VastService.provisioned (VastService.calls w))
  /\ (forall instance_id,
        VastService.active_instance_id w = None ->
        VastService.creates settings provider instance_id ->
        VastService.healthy settings provider instance_id ->
        let once := VastService.ensure_gpu_instance settings provider w in
        let twice := VastService.ensure_gpu_instance settings provider (snd once) in
        once = (Some instance_id,
                VastService.mkWorld (Some instance_id)
                  (VastService.calls w ++ [VastService.create_call settings]))
        /\ twice = (Some instance_id,
                    VastService.mkWorld (Some instance_id)
                      (VastService.calls w
                       ++ [VastService.create_call settings;
                           VastService.GetInstance instance_id]))
        /\ VastService.provisioned (VastService.calls (snd twice))
           = S (VastService.provisioned (VastService.calls w)))
  /\ (forall idle_seconds,
        idle_seconds < VastService.idle_timeout settings ->
        VastService.maybe_shutdown_gpu settings provider idle_seconds w
        = (tt, w)).
Proof.
  split; [|split].
  - intros instance_id Hactive Hid Hhealthy. simpl.
    rewrite (ensure_gpu_instance_healthy _ _ _ _ Hactive Hid Hhealthy). simpl.
    rewrite (ensure_gpu_instance_healthy settings provider
               (VastService.mkWorld (Some instance_id) _) instance_id
               eq_refl Hid Hhealthy). simpl.
    rewrite <- app_assoc. simpl. split; [reflexivity|]. split; [reflexivity|].
    rewrite provisioned_app. unfold VastService.provisioned. simpl. lia.
  - intros instance_id Hactive Hcreates Hhealthy. simpl.
    assert (instance_id <> EmptyString) as Hid by apply Hcreates.
    rewrite (ensure_gpu_instance_creates settings provider w instance_id Hcreates)
      by (rewrite Hactive; exact I).
    simpl.
    rewrite (ensure_gpu_instance_healthy settings provider
               (VastService.mkWorld (Some instance_id) _) instance_id
               eq_refl Hid Hhealthy). simpl.
    rewrite <- app_assoc. simpl. split; [reflexivity|]. split; [reflexivity|].
    rewrite provisioned_app.
    unfold VastService.provisioned, VastService.create_call. simpl. lia.
  - intros idle_seconds Hidle.
    apply maybe_shutdown_gpu_below_threshold. exact Hidle.
Qed.

(** Instance X is on record and the provider reports it running: two
    calls in a row request no instance.  No instance is on record; the
    provider creates X and reports it running: two calls in a row
    provision X once.  With the timeout configured as 0 the threshold is
    180: after 100 idle seconds [maybe_shutdown_gpu] does nothing. *)
Lemma ensure_twice_provisions_once_and_shutdown_waits_witness :
  (let once := VastService.ensure_gpu_instance Samples.settings
                 Samples.all_running MoreSamples.fleet_X in
   let twice := VastService.ensure_gpu_instance Samples.settings
                  Samples.all_running (snd once) in
   once = (Some "X"%string,
           VastService.mkWorld (Some "X"%string)
             ([] ++ [VastService.GetInstance "X"]))
   /\ twice = (Some "X"%string,
               VastService.mkWorld (Some "X"%string)
                 ([] ++ [VastService.GetInstance "X";
                         VastService.GetInstance "X"]))
   /\ VastService.provisioned (VastService.calls (snd twice)) = 0%nat)
  /\ (let w := VastService.mkWorld None [] in
      let once := VastService.ensure_gpu_instance Samples.settings
                    Samples.all_running w in
      let twice := VastService.ensure_gpu_instance Samples.settings
                     Samples.all_running (snd once) in
      once = (Some "X"%string,
              VastService.mkWorld (Some "X"%string)
                ([] ++ [VastService.create_call Samples.settings]))
      /\ twice = (Some "X"%string,
                  VastService.mkWorld (Some "X"%string)
                    ([] ++ [VastService.create_call Samples.settings;
                            VastService.GetInstance "X"]))
      /\ VastService.provisioned (VastService.calls (snd twice)) = 1%nat)
  /\ VastService.maybe_shutdown_gpu MoreSamples.zero_timeout
       Samples.all_running 100 MoreSamples.fleet_X
     = (tt, MoreSamples.fleet_X).
Proof.
  assert (VastService.creates Samples.settings Samples.all_running "X") as Hc.
  { split; [discriminate|]. split; [discriminate|].
    exists 201, ({["id" := "X"]} : Json). repeat split; reflexivity. }
  assert (VastService.healthy Samples.settings Samples.all_running "X") as Hh.
  { split; [discriminate|].
    exists ({["state" := "Running"]} : Json). split; reflexivity. }
  split; [|split].
  - exact (proj1 (ensure_twice_provisions_once_and_shutdown_waits
                    Samples.settings Samples.all_running MoreSamples.fleet_X)
             "X"%string eq_refl ltac:(discriminate) Hh).
  - exact (proj1 (proj2 (ensure_twice_provisions_once_and_shutdown_waits
                           Samples.settings Samples.all_running
                           (VastService.mkWorld None [])))
             "X"%string eq_refl Hc Hh).
  - exact (proj2 (proj2 (ensure_twice_provisions_once_and_shutdown_waits
                           MoreSamples.zero_timeout Samples.all_running
                           MoreSamples.fleet_X))
             100 eq_refl).
Defined.

(** * Further properties of the code *)

(** ** Queue statistics *)

Section Statistics.

Import Stats.

Lemma count_rows_perm (s : JobStatus) (l l' : list (Z * Job)) :
  l ≡ₚ l' -> count_rows s l = count_rows s l'.
Proof. intros H. unfold count_rows. rewrite H. reflexivity. Qed.

Lemma count_rows_cons (s : JobStatus) (r : Z * Job) (l : list (Z * Job)) :
  count_rows s (r :: l)
  = ((if decide (status (snd r) = s) then 1 else 0) + count_rows s l)%nat.
Proof.
  unfold count_rows. rewrite filter_cons. destruct (decide _); reflexivity.
Qed.

(** Every row is counted under exactly one status. *)
Lemma count_rows_total (l : list (Z * Job)) :
  (count_rows QUEUED l + count_rows RUNNING l + count_rows COMPLETED l
   + count_rows FAILED l + count_rows CANCELLED l)%nat = length l.
Proof.
  induction l as [|r l IH]; [reflexivity|].
  rewrite !count_rows_cons. simpl length. rewrite <- IH.
  destruct (status (snd r)); simpl; lia.
Qed.

(** Overwriting a row moves one unit from the count of its old status to
    the count of its new status. *)
Lemma count_status_insert (s : JobStatus) (db : Jobs) (k : Z) (old new : Job) :
  db !! k = Some old ->
  (count_status s (<[k := new]> db) + (if decide (status old = s) then 1 else 0)
   = count_status s db + (if decide (status new = s) then 1 else 0))%nat.
Proof.
  intros Hlook. unfold count_status.
  rewrite <- (insert_delete_eq db k new).
  rewrite (count_rows_perm s _ _
             (map_to_list_insert (delete k db) k new (lookup_delete_eq db k))).
  rewrite <- (count_rows_perm s _ _ (map_to_list_delete db k old Hlook)).
  rewrite !count_rows_cons. simpl. lia.
Qed.

(** The counts of the table after a sweep, row by row. *)
Lemma count_rows_sweep (th now : Z) (l : list (Z * Job)) :
  let sweep := prod_map id (fun job : Job =>
                 if JobOrchestrationService.stuck th job
                 then JobOrchestrationService.recover now job else job) in
  let n := length (List.filter
                     (fun r => JobOrchestrationService.stuck th (snd r)) l) in
  count_rows RUNNING l = (count_rows RUNNING (sweep <$> l) + n)%nat
  /\ (count_rows QUEUED (sweep <$> l) + count_rows FAILED (sweep <$> l))%nat
     = (count_rows QUEUED l + count_rows FAILED l + n)%nat
  /\ count_rows COMPLETED (sweep <$> l) = count_rows COMPLETED l
  /\ count_rows CANCELLED (sweep <$> l) = count_rows CANCELLED l.
Proof.
  induction l as [|[k j] l IH]; [simpl; auto|].
  cbv zeta in *. destruct IH as (IH1 & IH2 & IH3 & IH4).
  rewrite fmap_cons, !count_rows_cons.
  cbn [List.filter snd prod_map id].
  destruct (JobOrchestrationService.stuck th j) eqn:Hs.
  - pose proof (proj1 (stuck_spec _ _) Hs) as [Hrun _].
    pose proof (recover_spec now j) as (_ & _ & _ & _ & Hq & Hf).
    rewrite Hrun.
    destruct (Z_lt_le_dec (retries j + 1) 3) as [Hlt|Hge].
    + rewrite (Hq Hlt). repeat case_decide; try congruence.
      cbn [length]. lia.
    + destruct (Hf Hge) as (-> & _). repeat case_decide; try congruence.
      cbn [length]. lia.
  - destruct (status j); repeat case_decide; try congruence; lia.
Qed.

End Statistics.

(** X1. The four counts of [get_worker_stats] and the number of
    cancelled jobs add up to the number of rows: the statistics cover
    every job but the cancelled ones, and count none twice. *)
Theorem worker_stats_cover_all_but_cancelled (db : Jobs) :
  let stats := Stats.get_worker_stats db in
  (Stats.queued stats + Stats.running stats + Stats.failed stats
   + Stats.completed stats + Stats.count_status CANCELLED db)%nat = size db.
Proof.
  simpl. unfold Stats.count_status.
  rewrite <- (length_map_to_list db), <- (count_rows_total (map_to_list db)).
  lia.
Qed.

(** X2. The counts [get_job_stats] reports, one for each of the five
    statuses, add up to the number of rows, and its counts of queued,
    running, failed and completed jobs are those of [get_worker_stats]. *)
Theorem job_stats_total_is_table_size (db : Jobs) :
  Stats.total (Stats.get_job_stats db) = size db
  /\ (QUEUED, Stats.queued (Stats.get_worker_stats db)) ∈ Stats.get_job_stats db
  /\ (RUNNING, Stats.running (Stats.get_worker_stats db)) ∈ Stats.get_job_stats db
  /\ (FAILED, Stats.failed (Stats.get_worker_stats db)) ∈ Stats.get_job_stats db
  /\ (COMPLETED, Stats.completed (Stats.get_worker_stats db))
     ∈ Stats.get_job_stats db.
Proof.
  split.
  - unfold Stats.get_job_stats, Stats.total, Stats.count_status. simpl.
    rewrite <- (length_map_to_list db), <- (count_rows_total (map_to_list db)).
    lia.
  - unfold Stats.get_job_stats. simpl. repeat split; set_solver.
Qed.

(** X3. A claim of the router that serves a job takes one job from the
    queued count to the running count and leaves the failed and
    completed counts.  A claim of the service does the same to the rows
    its session sees; as it does not commit, the counts of the committed
    table are those from before. *)
Theorem claim_moves_one_job_from_queued_to_running
    (has_target : bool) (locked : gset Z) (worker_id : Workers.Identity)
    (tgt : string) (now : Z)
    (all_kinds : list string) (job_kinds : option (list string))
    (service_worker : string)
    (db db' : Jobs) (s s' : JobOrchestrationService.Session)
    (id : Z) (job : Job) :
  (Workers.claim_job has_target locked worker_id tgt now db
   = (Workers.JobBody id job, db') ->
   let before := Stats.get_worker_stats db in
   let after := Stats.get_worker_stats db' in
   Stats.queued before = S (Stats.queued after)
   /\ Stats.running after = S (Stats.running before)
   /\ Stats.failed after = Stats.failed before
   /\ Stats.completed after = Stats.completed before)
  /\ (JobOrchestrationService.claim_job all_kinds locked service_worker
        job_kinds now false s = (Some (id, job), s') ->
      let before :=
        Stats.get_worker_stats (JobOrchestrationService.pending s) in
      let after :=
        Stats.get_worker_stats (JobOrchestrationService.pending s') in
      (Stats.queued before = S (Stats.queued after)
       /\ Stats.running after = S (Stats.running before)
       /\ Stats.failed after = Stats.failed before
       /\ Stats.completed after = Stats.completed before)
      /\ Stats.get_worker_stats (JobOrchestrationService.close s')
         = Stats.get_worker_stats (JobOrchestrationService.committed s)).
Proof.
  assert (forall (t : Jobs) (old : Job),
            t !! id = Some old -> status old = QUEUED -> status job = RUNNING ->
            let before := Stats.get_worker_stats t in
            let after := Stats.get_worker_stats (<[id := job]> t) in
            Stats.queued before = S (Stats.queued after)
            /\ Stats.running after = S (Stats.running before)
            /\ Stats.failed after = Stats.failed before
            /\ Stats.completed after = Stats.completed before) as Hshift.
  { intros t old Hlook Hq Hr. simpl.
    pose proof (count_status_insert QUEUED t id old job Hlook) as H1.
    pose proof (count_status_insert RUNNING t id old job Hlook) as H2.
    pose proof (count_status_insert FAILED t id old job Hlook) as H3.
    pose proof (count_status_insert COMPLETED t id old job Hlook) as H4.
    rewrite Hq, Hr in H1, H2, H3, H4. simpl in *. lia. }
  split.
  - intros Hclaim.
    destruct (router_claim_some _ _ _ _ _ _ _ _ _ Hclaim)
      as (old & Hlook & (Hq & _) & _ & Hjob & ->).
    apply (Hshift db old Hlook Hq). rewrite Hjob. reflexivity.
  - intros Hclaim.
    destruct (service_claim_some _ _ _ _ _ _ _ _ _ Hclaim)
      as (old & Hlook & (Hq & _) & _ & Hjob & ->).
    split; [|reflexivity].
    apply (Hshift _ old Hlook Hq). rewrite Hjob. reflexivity.
Qed.

Lemma claim_moves_one_job_from_queued_to_running_witness :
  (let before := Stats.get_worker_stats Samples.backlog in
   let after :=
     Stats.get_worker_stats
       (<[2 := Samples.held "w1" 100 Samples.job_B]> Samples.backlog) in
   Stats.queued before = S (Stats.queued after)
   /\ Stats.running after = S (Stats.running before)
   /\ Stats.failed after = Stats.failed before
   /\ Stats.completed after = Stats.completed before)
  /\ Stats.get_worker_stats
       (JobOrchestrationService.close
          (JobOrchestrationService.mkSession Samples.backlog
             (<[2 := set_updated_at 100 (Samples.held "w1" 100 Samples.job_B)]>
                Samples.backlog)))
     = Stats.get_worker_stats Samples.backlog.
Proof.
  split.
  - apply (proj1 (claim_moves_one_job_from_queued_to_running
                    true ∅ (Some "w1"%string) "gpu" 100 Samples.all_kinds None
                    "w1" Samples.backlog
                    (<[2 := Samples.held "w1" 100 Samples.job_B]> Samples.backlog)
                    (JobOrchestrationService.open_session Samples.backlog)
                    (JobOrchestrationService.open_session Samples.backlog) 2
                    (Samples.held "w1" 100 Samples.job_B))).
    vm_compute. reflexivity.
  - apply (proj2 (claim_moves_one_job_from_queued_to_running
                    true ∅ (Some "w1"%string) "gpu" 100 Samples.all_kinds None
                    "w1" Samples.backlog Samples.backlog
                    (JobOrchestrationService.open_session Samples.backlog)
                    (JobOrchestrationService.mkSession Samples.backlog
                       (<[2 := set_updated_at 100
                                 (Samples.held "w1" 100 Samples.job_B)]>
                          Samples.backlog))
                    2 (set_updated_at 100 (Samples.held "w1" 100 Samples.job_B)))).
    vm_compute. reflexivity.
Defined.

(** ** The sweep, further *)

Section SweepAgain.

Import JobOrchestrationService.

(** Once swept, no row is stuck for the same threshold. *)
Lemma swept_row_not_stuck (th now : Z) (j : Job) :
  stuck th (if stuck th j then recover now j else j) = false.
Proof.
  destruct (stuck th j) eqn:Hs; [|exact Hs].
  apply not_true_is_false. intros Hs'. apply stuck_spec in Hs'.
  destruct Hs' as (_ & t & Hres & _).
  pose proof (recover_spec now j) as (_ & _ & Hnone & _). congruence.
Qed.

Lemma filter_none (A : Type) (f : A -> bool) (l : list A) :
  (forall x, In x l -> f x = false) -> List.filter f l = [].
Proof.
  induction l as [|x l IH]; intros H; [reflexivity|]. simpl.
  rewrite (H x) by (left; reflexivity). apply IH.
  intros y Hy. apply H. right. exact Hy.
Qed.

End SweepAgain.



(** X5. The count the sweep returns is the number of jobs it takes out
    of running: the running count drops by it, the queued and failed
    counts together grow by it, and the completed count and the number of
    rows stay. *)
Theorem sweep_count_is_drop_in_running
    (timeout_minutes now : Z) (db : Jobs) :
  let swept := JobOrchestrationService.requeue_stuck_jobs timeout_minutes now db in
  let before := Stats.get_worker_stats db in
  let after := Stats.get_worker_stats (snd swept) in
  Z.of_nat (Stats.running before) = Z.of_nat (Stats.running after) + fst swept
  /\ Z.of_nat (Stats.queued after) + Z.of_nat (Stats.failed after)
     = Z.of_nat (Stats.queued before) + Z.of_nat (Stats.failed before) + fst swept
  /\ Stats.completed after = Stats.completed before
  /\ size (snd swept) = size db
  /\ 0 <= fst swept <= Z.of_nat (Stats.running before).
Proof.
  cbv zeta. unfold JobOrchestrationService.requeue_stuck_jobs. simpl.
  unfold Stats.count_status. rewrite map_to_list_fmap.
  pose proof (count_rows_sweep
                (now - JobOrchestrationService.minutes timeout_minutes) now
                (map_to_list db)) as H.
  cbv zeta in H. destruct H as (H1 & H2 & H3 & _).
  rewrite map_size_fmap. repeat split; lia.
Qed.

(** X6. A second sweep at the same time and with the same timeout
    recovers nothing: it returns 0 and leaves the table. *)
Theorem sweep_twice_is_sweep_once (timeout_minutes now : Z) (db : Jobs) :
  let once := snd (JobOrchestrationService.requeue_stuck_jobs timeout_minutes now db) in
  JobOrchestrationService.requeue_stuck_jobs timeout_minutes now once = (0, once).
Proof.
  cbv zeta. unfold JobOrchestrationService.requeue_stuck_jobs. simpl.
  set (th := now - JobOrchestrationService.minutes timeout_minutes).
  set (f := fun job : Job =>
              if JobOrchestrationService.stuck th job
              then JobOrchestrationService.recover now job else job).
  f_equal.
  - rewrite map_to_list_fmap, filter_none; [reflexivity|].
    intros [k j'] Hin. apply in_map_iff in Hin.
    destruct Hin as ([k0 j] & [= <- <-] & _). simpl.
    apply swept_row_not_stuck.
  - apply map_eq. intros k. rewrite !lookup_fmap.
    destruct (db !! k) as [j|]; [|reflexivity]. simpl. f_equal.
    unfold f. rewrite swept_row_not_stuck. reflexivity.
Qed.

(** ** The reports of a worker, further *)

Section Reports.

Import Workers.

(** The three reports share their two checks. *)
Lemma report_checks (job_id : Z) (worker_id : Identity) (db : Jobs)
    (write : Job -> Job) :
  let r := match db !! job_id with
           | None => (HTTPException 404 "Job not found", db)
           | Some job =>
               if bool_decide (reserved_by job ≠ worker_id)
               then (HTTPException 403 "Not your job", db)
               else (NoContent, <[job_id := write job]> db)
           end in
  (fst r = NoContent <->
   exists job, db !! job_id = Some job /\ reserved_by job = worker_id)
  /\ (fst r = HTTPException 404 "Job not found" <-> db !! job_id = None)
  /\ (fst r <> NoContent -> snd r = db).
Proof.
  simpl. destruct (db !! job_id) as [job|] eqn:Hlook.
  - case_bool_decide as Hres; simpl.
    + repeat split; try discriminate; try reflexivity.
      intros (job' & [= <-] & Hheld). contradiction.
    + repeat split; try discriminate; try contradiction.
      intros _. exists job. split; [reflexivity|].
      destruct (decide (reserved_by job = worker_id)); tauto.
  - simpl. repeat split; try discriminate; try reflexivity.
    intros (job' & [=] & _).
Qed.

End Reports.

(** X7. [mark_done], [mark_fail] and [job_heartbeat] answer 204 exactly
    when the job exists and [reserved_by] is the caller, and 404 exactly
    when there is no row with the id; whenever the answer is not 204 the
    table is left as it was. *)
Theorem report_answers
    (job_id : Z) (worker_id : Workers.Identity) (body_result_json : Json)
    (body_error_message : string) (now : Z) (db : Jobs) (r : Workers.Response * Jobs) :
  r = Workers.mark_done job_id body_result_json worker_id now db
  \/ r = Workers.mark_fail job_id body_error_message worker_id now db
  \/ r = Workers.job_heartbeat job_id worker_id now db ->
  (fst r = Workers.NoContent <->
   exists job, db !! job_id = Some job /\ reserved_by job = worker_id)
  /\ (fst r = Workers.HTTPException 404 "Job not found" <-> db !! job_id = None)
  /\ (fst r <> Workers.NoContent -> snd r = db).
Proof.
  intros [-> | [-> | ->]].
  - exact (report_checks job_id worker_id db
             (fun job => set_completed_at (Some now) (set_error_message None
                (set_result_json (Some body_result_json)
                   (set_status COMPLETED job))))).
  - exact (report_checks job_id worker_id db
             (fun job => set_retries (retries job + 1)
                (set_completed_at (Some now)
                   (set_error_message (Some body_error_message)
                      (set_status FAILED job))))).
  - exact (report_checks job_id worker_id db (set_updated_at now)).
Qed.

Lemma report_answers_witness :
  (fst (Workers.mark_done 5 ∅ (Some "w1"%string) 50 Samples.in_progress) = Workers.NoContent <->
   exists job, Samples.in_progress !! 5 = Some job
               /\ reserved_by job = Some "w1"%string)
  /\ (fst (Workers.mark_done 5 ∅ (Some "w1"%string) 50 Samples.in_progress)
      = Workers.HTTPException 404 "Job not found"
      <-> Samples.in_progress !! 5 = None)
  /\ (fst (Workers.mark_done 5 ∅ (Some "w1"%string) 50 Samples.in_progress) <> Workers.NoContent ->
      snd (Workers.mark_done 5 ∅ (Some "w1"%string) 50 Samples.in_progress)
      = Samples.in_progress).
Proof.
  apply (report_answers 5 (Some "w1"%string) ∅ EmptyString 50
           Samples.in_progress).
  left. reflexivity.
Defined.

(** X8. Heartbeats do not add up: a heartbeat followed by a later one
    from the same caller leaves the table the later one alone would
    leave, and answers as it would. *)
Theorem later_heartbeat_overrides_earlier
    (job_id : Z) (worker_id : Workers.Identity) (t1 t2 : Z) (db : Jobs) :
  Workers.job_heartbeat job_id worker_id t2
    (snd (Workers.job_heartbeat job_id worker_id t1 db))
  = Workers.job_heartbeat job_id worker_id t2 db.
Proof.
  unfold Workers.job_heartbeat.
  destruct (db !! job_id) as [job|] eqn:Hlook; simpl; [|rewrite Hlook; reflexivity].
  case_bool_decide as Hres; simpl.
  - rewrite Hlook, (bool_decide_eq_true_2 _ Hres). reflexivity.
  - rewrite lookup_insert_eq. simpl.
    rewrite bool_decide_eq_false_2 by (intros H; apply H, Hres).
    rewrite insert_insert_eq. reflexivity.
Qed.


(** X10. A job served by a claim can be reported done by the worker that
    claimed it, and by no other: the claimant's report is answered 204 and
    leaves the job completed with the result, any other worker's is
    answered 403 and changes nothing. *)
Theorem claimed_job_is_completed_by_its_claimant_only
    (has_target : bool) (locked : gset Z) (worker_id : Workers.Identity)
    (tgt : string) (now : Z)
    (db db' : Jobs) (id : Z) (job : Job) (body_result_json : Json) (later : Z) :
  Workers.claim_job has_target locked worker_id tgt now db
    = (Workers.JobBody id job, db') ->
  (exists done,
     Workers.mark_done id body_result_json worker_id later db'
     = (Workers.NoContent, <[id := done]> db')
     /\ status done = COMPLETED
     /\ result_json done = Some body_result_json
     /\ completed_at done = Some later
     /\ started_at done = Some now)
  /\ (forall other,
        other <> worker_id ->
        Workers.mark_done id body_result_json other later db'
        = (Workers.HTTPException 403 "Not your job", db')).
Proof.
  intros Hclaim.
  destruct (router_claim_some _ _ _ _ _ _ _ _ _ Hclaim)
    as (before & _ & _ & _ & -> & ->).
  unfold Workers.mark_done. rewrite lookup_insert_eq. simpl. split.
  - rewrite bool_decide_eq_false_2 by (intros H; apply H; reflexivity).
    eexists. split; [reflexivity|]. simpl. auto.
  - intros other Hother.
    rewrite bool_decide_eq_true_2 by congruence. reflexivity.
Qed.

Lemma claimed_job_is_completed_by_its_claimant_only_witness :
  (exists done,
     Workers.mark_done 2 ∅ (Some "w1"%string) 200
       (<[2 := Samples.held "w1" 100 Samples.job_B]> Samples.backlog)
     = (Workers.NoContent,
        <[2 := done]> (<[2 := Samples.held "w1" 100 Samples.job_B]> Samples.backlog))
     /\ status done = COMPLETED
     /\ result_json done = Some ∅
     /\ completed_at done = Some 200
     /\ started_at done = Some 100)
  /\ (forall other,
        other <> Some "w1"%string ->
        Workers.mark_done 2 ∅ other 200
          (<[2 := Samples.held "w1" 100 Samples.job_B]> Samples.backlog)
        = (Workers.HTTPException 403 "Not your job",
           <[2 := Samples.held "w1" 100 Samples.job_B]> Samples.backlog)).
Proof.
  apply (claimed_job_is_completed_by_its_claimant_only
           true ∅ (Some "w1"%string) "gpu" 100 Samples.backlog _ 2
           (Samples.held "w1" 100 Samples.job_B) ∅ 200).
  vm_compute. reflexivity.
Defined.

(** ** What no request changes *)

Section Frame.

Import JobOrchestrationService.

(** The columns no request writes. *)
Lemma job_step_frame (now : Z) (op : Op) (j j' : Job) :
  job_step now op j j' ->
  user_id j' = user_id j /\ kind j' = kind j
  /\ payload_json j' = payload_json j /\ priority j' = priority j
  /\ created_at j' = created_at j /\ target j' = target j.
Proof.
  intros Hstep. destruct Hstep; simpl; try (repeat split; reflexivity).
  - unfold update_job.
    destruct new_status; simpl;
      repeat match goal with
             | |- context [if ?b then _ else _] => destruct b; simpl
             end; repeat split; reflexivity.
  - unfold recover. destruct (3 <=? _); simpl; repeat split; reflexivity.
Qed.

End Frame.

(** X11. No request of the core adds or removes a row, and none changes
    the submitter, the kind, the payload, the priority, the creation time
    or the target of a job. *)
Theorem requests_keep_rows_and_submission
    (op : Op) (now : Z) (db : Jobs) :
  dom (run op now db) = dom db
  /\ forall id j j',
       db !! id = Some j -> run op now db !! id = Some j' ->
       user_id j' = user_id j /\ kind j' = kind j
       /\ payload_json j' = payload_json j /\ priority j' = priority j
       /\ created_at j' = created_at j /\ target j' = target j.
Proof.
  split.
  - apply set_eq. intros k. rewrite !elem_of_dom.
    pose proof (run_lookup op now db k) as H.
    destruct (db !! k) as [j|].
    + destruct H as (j' & -> & _). split; eauto.
    + rewrite H. reflexivity.
  - intros id j j' Hlook Hlook'.
    destruct (run_lookup_some op now db id j Hlook) as (j'' & Hrun & Hstep).
    rewrite Hlook' in Hrun. injection Hrun as <-.
    destruct Hstep as [->|Hstep]; [auto 10|].
    exact (job_step_frame _ _ _ _ Hstep).
Qed.

(** X12. The reports of the router look at the holder, not at the
    status.  The holder of a job, whatever its status, can report it done
    and then failed: both reports are answered 204, and the job ends
    failed with one more retry, the error of the second report and the
    result of the first.  In the other order the job ends completed, with
    the result, no error, and the retry the failure added. *)
Theorem holder_reports_are_accepted_in_any_status
    (job_id : Z) (job : Job) (worker_id : Workers.Identity)
    (body_result_json : Json)
    (body_error_message : string) (t1 t2 : Z) (db : Jobs) :
  db !! job_id = Some job ->
  reserved_by job = worker_id ->
  (let done := Workers.mark_done job_id body_result_json worker_id t1 db in
   let failed := Workers.mark_fail job_id body_error_message worker_id t2 (snd done) in
   fst done = Workers.NoContent /\ fst failed = Workers.NoContent
   /\ exists j',
        snd failed !! job_id = Some j'
        /\ status j' = FAILED /\ retries j' = retries job + 1
        /\ error_message j' = Some body_error_message
        /\ result_json j' = Some body_result_json
        /\ completed_at j' = Some t2)
  /\ (let failed := Workers.mark_fail job_id body_error_message worker_id t1 db in
      let done := Workers.mark_done job_id body_result_json worker_id t2 (snd failed) in
      fst failed = Workers.NoContent /\ fst done = Workers.NoContent
      /\ exists j',
           snd done !! job_id = Some j'
           /\ status j' = COMPLETED /\ retries j' = retries job + 1
           /\ error_message j' = None
           /\ result_json j' = Some body_result_json
           /\ completed_at j' = Some t2).
Proof.
  intros Hlook Hres.
  assert (bool_decide (reserved_by job ≠ worker_id) = false) as Hb
    by (apply bool_decide_eq_false_2; intros H; apply H, Hres).
  unfold Workers.mark_done, Workers.mark_fail. rewrite Hlook, Hb. simpl.
  rewrite !lookup_insert_eq. simpl. rewrite Hb. simpl.
  rewrite !lookup_insert_eq. split.
  - split; [reflexivity|]. split; [reflexivity|].
    eexists. split; [reflexivity|]. simpl. auto 10.
  - split; [reflexivity|]. split; [reflexivity|].
    eexists. split; [reflexivity|]. simpl. auto 10.
Qed.

Lemma holder_reports_are_accepted_in_any_status_witness :
  let job := Samples.held "w1" 0 Samples.job_A in
  (let done := Workers.mark_done 1 ∅ (Some "w1"%string) 10 Samples.in_progress in
   let failed := Workers.mark_fail 1 "late" (Some "w1"%string) 20 (snd done) in
   fst done = Workers.NoContent /\ fst failed = Workers.NoContent
   /\ exists j',
        snd failed !! 1 = Some j'
        /\ status j' = FAILED /\ retries j' = retries job + 1
        /\ error_message j' = Some "late"%string
        /\ result_json j' = Some ∅
        /\ completed_at j' = Some 20)
  /\ (let failed := Workers.mark_fail 1 "late" (Some "w1"%string) 10 Samples.in_progress in
      let done := Workers.mark_done 1 ∅ (Some "w1"%string) 20 (snd failed) in
      fst failed = Workers.NoContent /\ fst done = Workers.NoContent
      /\ exists j',
           snd done !! 1 = Some j'
           /\ status j' = COMPLETED /\ retries j' = retries job + 1
           /\ error_message j' = None
           /\ result_json j' = Some ∅
           /\ completed_at j' = Some 20).
Proof.
  apply (holder_reports_are_accepted_in_any_status
           1 (Samples.held "w1" 0 Samples.job_A) (Some "w1"%string) ∅ "late" 10 20
           Samples.in_progress).
  - vm_compute. reflexivity.
  - reflexivity.
Defined.

(** ** [update_job_status], further *)

(** X13. [update_job_status] returns [True] exactly when the job exists,
    the caller is its holder and the new status is listed for the current
    one in [valid_transitions]; when it returns [False] the table is left
    as it was. *)
Theorem update_job_status_accepts_exactly_valid_requests_of_holder
    (job_id : Z) (new_status : JobStatus) (worker_id : string)
    (result_data : option Json) (error_message : option string) (now : Z)
    (db : Jobs) :
  let r := JobOrchestrationService.update_job_status job_id new_status
             worker_id result_data error_message now db in
  (fst r = true <->
   exists job,
     db !! job_id = Some job /\ reserved_by job = Some worker_id
     /\ new_status ∈ JobOrchestrationService.valid_transitions (status job))
  /\ (fst r = false -> snd r = db).
Proof.
  cbv zeta. unfold JobOrchestrationService.update_job_status.
  destruct (db !! job_id) as [job|].
  - case_bool_decide as Hres; simpl.
    + split; [|reflexivity]. split; [discriminate|].
      intros (job' & [= <-] & Hheld & _). contradiction.
    + assert (reserved_by job = Some worker_id) as Hheld
        by (destruct (decide (reserved_by job = Some worker_id)); tauto).
      unfold JobOrchestrationService._is_valid_status_transition.
      case_bool_decide as Hvalid; simpl.
      * split; [|discriminate]. split; [|reflexivity].
        intros _. exists job. auto.
      * split; [|reflexivity]. split; [discriminate|].
        intros (job' & [= <-] & _ & Hin). contradiction.
  - simpl. split; [|reflexivity]. split; [discriminate|].
    intros (job' & [=] & _).
Qed.

(** X14. The status changes [update_job_status] makes.  When it returns
    [True], the job goes from queued to running or cancelled; from
    running to completed, cancelled, failed or, a failure below the
    ceiling being requeued at once, queued; from failed to queued; and
    from nowhere else to anywhere. *)
Theorem update_job_status_effective_transitions
    (job_id : Z) (new_status : JobStatus) (worker_id : string)
    (result_data : option Json) (error_message : option string) (now : Z)
    (db db' : Jobs) (j : Job) :
  JobOrchestrationService.update_job_status job_id new_status worker_id
    result_data error_message now db = (true, db') ->
  db !! job_id = Some j ->
  exists j',
    db' !! job_id = Some j'
    /\ (status j, status j')
       ∈ [ (QUEUED, RUNNING); (QUEUED, CANCELLED);
           (RUNNING, COMPLETED); (RUNNING, CANCELLED); (RUNNING, FAILED);
           (RUNNING, QUEUED); (FAILED, QUEUED) ]
    /\ (status j = RUNNING -> status j' = QUEUED ->
        new_status = FAILED /\ retries j + 1 < 3)
    /\ (status j' = FAILED -> 3 <= retries j').
Proof.
  unfold JobOrchestrationService.update_job_status. intros Hupd Hlook.
  rewrite Hlook in Hupd.
  destruct (bool_decide _); [discriminate|].
  destruct (JobOrchestrationService._is_valid_status_transition _ _) eqn:Hv;
    [|discriminate].
  simpl in Hupd. injection Hupd as <-. rewrite lookup_insert_eq.
  eexists. split; [reflexivity|].
  unfold JobOrchestrationService.update_job.
  destruct (status j) eqn:Hs, new_status; try discriminate Hv; simpl;
    repeat match goal with
           | |- context [if ?b then _ else _] => destruct b eqn:?; simpl
           end;
    repeat match goal with
           | H : (_ <=? _) = true |- _ => apply Z.leb_le in H
           | H : (_ <=? _) = false |- _ => apply Z.leb_gt in H
           end;
    (split; [set_solver|]); split; intros; try discriminate; try split;
    try reflexivity; simpl in *; try lia.
Qed.

Lemma update_job_status_effective_transitions_witness :
  exists j',
    (<[1 := JobOrchestrationService.update_job FAILED None
              (Some "out of memory"%string) 50
              (Samples.held "w1" 0 Samples.job_A)]> Samples.in_progress) !! 1
    = Some j'
    /\ (status (Samples.held "w1" 0 Samples.job_A), status j')
       ∈ [ (QUEUED, RUNNING); (QUEUED, CANCELLED);
           (RUNNING, COMPLETED); (RUNNING, CANCELLED); (RUNNING, FAILED);
           (RUNNING, QUEUED); (FAILED, QUEUED) ]
    /\ (status (Samples.held "w1" 0 Samples.job_A) = RUNNING ->
        status j' = QUEUED ->
        FAILED = FAILED /\ retries (Samples.held "w1" 0 Samples.job_A) + 1 < 3)
    /\ (status j' = FAILED -> 3 <= retries j').
Proof.
  apply (update_job_status_effective_transitions
           1 FAILED "w1" None (Some "out of memory"%string) 50
           Samples.in_progress _ (Samples.held "w1" 0 Samples.job_A)).
  - vm_compute. reflexivity.
  - vm_compute. reflexivity.
Defined.

(** X15. A completion through [update_job_status] stores the result only
    when it is a non-empty object: with no result or with an empty one
    the earlier [result_json] stays.  It keeps the error message, the
    retry count and the holder of the job, and sets [completed_at]. *)
Theorem service_completion_keeps_result_unless_given
    (job_id : Z) (job : Job) (worker_id : string) (result_data : option Json)
    (error_message : option string) (now : Z) (db : Jobs) :
  db !! job_id = Some job ->
  reserved_by job = Some worker_id ->
  status job = RUNNING ->
  exists j',
    JobOrchestrationService.update_job_status job_id COMPLETED worker_id
      result_data error_message now db = (true, <[job_id := j']> db)
    /\ status j' = COMPLETED
    /\ (result_data = None \/ result_data = Some ∅ ->
        result_json j' = result_json job)
    /\ (forall data, result_data = Some data -> data <> ∅ ->
        result_json j' = Some data)
    /\ Model.error_message j' = Model.error_message job
    /\ retries j' = retries job
    /\ reserved_by j' = Some worker_id
    /\ completed_at j' = Some now /\ updated_at j' = now.
Proof.
  intros Hlook Hres Hrun. eexists. split.
  - apply update_job_status_accepts; [exact Hlook|exact Hres|].
    rewrite Hrun. reflexivity.
  - unfold JobOrchestrationService.update_job. simpl.
    assert (truthy_json result_data = true /\ (exists data,
              result_data = Some data /\ data <> ∅)
            \/ truthy_json result_data = false
               /\ (result_data = None \/ result_data = Some ∅)) as Hcases.
    { destruct result_data as [data|]; simpl; [|auto].
      destruct (decide (data = ∅)) as [->|Hne].
      - right. rewrite bool_decide_eq_true_2 by reflexivity. auto.
      - left. rewrite bool_decide_eq_false_2 by exact Hne. eauto. }
    destruct Hcases as [[Ht (data & Hd & Hne)]|[Ht Hempty]]; rewrite Ht; simpl.
    + subst result_data. split; [reflexivity|]. split.
      { intros [[=]|[= ->]]. contradiction. }
      split; [intros data' [= <-] _; reflexivity|]. auto 10.
    + split; [reflexivity|]. split; [reflexivity|]. split; [|auto 10].
      intros data Hdata Hne. destruct Hempty as [-> | ->].
      * discriminate Hdata.
      * injection Hdata as <-. contradiction.
Qed.

Lemma service_completion_keeps_result_unless_given_witness :
  exists j',
    JobOrchestrationService.update_job_status 1 COMPLETED "w1" (Some ∅) None 50
      Samples.in_progress = (true, <[1 := j']> Samples.in_progress)
    /\ status j' = COMPLETED
    /\ (Some (∅ : Json) = None \/ Some (∅ : Json) = Some ∅ ->
        result_json j' = result_json (Samples.held "w1" 0 Samples.job_A))
    /\ (forall data, Some (∅ : Json) = Some data -> data <> ∅ ->
        result_json j' = Some data)
    /\ Model.error_message j'
       = Model.error_message (Samples.held "w1" 0 Samples.job_A)
    /\ retries j' = retries (Samples.held "w1" 0 Samples.job_A)
    /\ reserved_by j' = Some "w1"%string
    /\ completed_at j' = Some 50 /\ updated_at j' = 50.
Proof.
  apply (service_completion_keeps_result_unless_given
           1 (Samples.held "w1" 0 Samples.job_A) "w1" (Some ∅) None 50
           Samples.in_progress).
  - vm_compute. reflexivity.
  - reflexivity.
  - reflexivity.
Defined.



(** ** The fleet controller, further *)

Section FleetAgain.

Import VastService.

Lemma stop_mode_destroy (settings : Settings) :
  String.eqb (stop_mode settings) "destroy"
  = String.eqb (lower (STOP_MODE settings)) "destroy".
Proof.
  unfold stop_mode.
  destruct (String.eqb_spec (STOP_MODE settings) EmptyString) as [->|_];
    reflexivity.
Qed.

(** The request a shutdown makes, by the configured mode. *)
Lemma shutdown_request settings provider (instance_id : string) (w : World) :
  VAST_AI_API_KEY settings <> EmptyString ->
  (stop_instance settings provider instance_id w
   = match provider (StopInstance instance_id) with
     | Answered status_code _ =>
         if accepted status_code
         then (true, mkWorld None (calls w ++ [StopInstance instance_id]))
         else (false, mkWorld (active_instance_id w)
                        (calls w ++ [StopInstance instance_id]))
     | Raised => (false, mkWorld (active_instance_id w)
                           (calls w ++ [StopInstance instance_id]))
     end)
  /\ (destroy_instance settings provider instance_id w
      = match provider (DestroyInstance instance_id) with
        | Answered status_code _ =>
            if accepted status_code
            then (true, mkWorld None (calls w ++ [DestroyInstance instance_id]))
            else (false, mkWorld (active_instance_id w)
                           (calls w ++ [DestroyInstance instance_id]))
        | Raised => (false, mkWorld (active_instance_id w)
                              (calls w ++ [DestroyInstance instance_id]))
        end).
Proof.
  intros Hkey. unfold stop_instance, destroy_instance, request.
  rewrite (_headers_some _ Hkey).
  split; destruct (provider _) as [|code body]; try reflexivity;
    destruct (accepted code); reflexivity.
Qed.

End FleetAgain.

(** X17. [maybe_shutdown_gpu] at or over the idle threshold (180 seconds
    when 0 is configured) makes one request about the recorded instance:
    the deletion when [STOP_MODE] reads "destroy" in any letter case, the
    stop otherwise.  The record is cleared when the provider answers 200,
    202 or 204, and kept otherwise; once it is cleared, a further call
    makes no request. *)
Theorem shutdown_over_threshold_makes_one_request
    (settings : VastService.Settings) (provider provider' : VastService.Provider)
    (idle_seconds idle_seconds' : Z) (w : VastService.World)
    (instance_id : string) :
  VastService.active_instance_id w = Some instance_id ->
  instance_id <> EmptyString ->
  VastService.VAST_AI_API_KEY settings <> EmptyString ->
  VastService.idle_timeout settings <= idle_seconds ->
  let c := if String.eqb (VastService.lower (VastService.STOP_MODE settings))
                "destroy"
           then VastService.DestroyInstance instance_id
           else VastService.StopInstance instance_id in
  let cleared := match provider c with
                 | VastService.Answered status_code _ =>
                     bool_decide (status_code ∈ [200; 202; 204])
                 | VastService.Raised => false
                 end in
  let w' := VastService.mkWorld
              (if cleared then None else Some instance_id)
              (VastService.calls w ++ [c]) in
  VastService.maybe_shutdown_gpu settings provider idle_seconds w = (tt, w')
  /\ (cleared = true ->
      VastService.maybe_shutdown_gpu settings provider' idle_seconds' w'
      = (tt, w')).
Proof.
  intros Hactive Hid Hkey Hidle. cbv zeta.
  unfold VastService.maybe_shutdown_gpu, VastService.get_active_instance_id.
  rewrite Hactive, (proj2 (truthy_str_spec _) Hid). simpl negb. cbv iota.
  rewrite (proj2 (Z.ltb_ge _ _) Hidle), stop_mode_destroy.
  destruct (shutdown_request settings provider instance_id w Hkey)
    as [Hstop Hdestroy].
  destruct (String.eqb _ "destroy"); cbv iota.
  - rewrite Hdestroy, Hactive.
    destruct (provider (VastService.DestroyInstance instance_id))
      as [|code body]; simpl;
      [split; [reflexivity|discriminate]|].
    unfold VastService.accepted.
    destruct (bool_decide (code ∈ [200; 202; 204])); simpl;
      (split; [reflexivity|]); intros; try discriminate; reflexivity.
  - rewrite Hstop, Hactive.
    destruct (provider (VastService.StopInstance instance_id))
      as [|code body]; simpl;
      [split; [reflexivity|discriminate]|].
    unfold VastService.accepted.
    destruct (bool_decide (code ∈ [200; 202; 204])); simpl;
      (split; [reflexivity|]); intros; try discriminate; reflexivity.
Qed.

Lemma shutdown_over_threshold_makes_one_request_witness :
  VastService.maybe_shutdown_gpu MoreSamples.destroy_settings
    Samples.all_running 180 MoreSamples.fleet_X
  = (tt, VastService.mkWorld None [VastService.DestroyInstance "X"])
  /\ (true = true ->
      VastService.maybe_shutdown_gpu MoreSamples.destroy_settings
        Samples.down 9999 (VastService.mkWorld None [VastService.DestroyInstance "X"])
      = (tt, VastService.mkWorld None [VastService.DestroyInstance "X"])).
Proof.
  apply (shutdown_over_threshold_makes_one_request
           MoreSamples.destroy_settings Samples.all_running Samples.down
           180 9999 MoreSamples.fleet_X "X").
  - reflexivity.
  - discriminate.
  - discriminate.
  - vm_compute. discriminate.
Defined.

(** X18. Without an API key the controller makes no request and changes
    nothing: [ensure_gpu_instance] returns [None], [stop_instance] and
    [destroy_instance] return [False], and [maybe_shutdown_gpu] leaves a
    recorded instance on record however long the fleet has been idle. *)
Theorem no_api_key_no_request
    (settings : VastService.Settings) (provider : VastService.Provider)
    (idle_seconds : Z) (instance_id : string) (w : VastService.World) :
  VastService.VAST_AI_API_KEY settings = EmptyString ->
  VastService.ensure_gpu_instance settings provider w = (None, w)
  /\ VastService.stop_instance settings provider instance_id w = (false, w)
  /\ VastService.destroy_instance settings provider instance_id w = (false, w)
  /\ VastService.maybe_shutdown_gpu settings provider idle_seconds w = (tt, w).
Proof.
  intros Hkey.
  assert (VastService._headers settings = None) as Hh
    by (unfold VastService._headers; rewrite Hkey; reflexivity).
  assert (forall id, VastService.stop_instance settings provider id w = (false, w))
    as Hstop by (intros id; unfold VastService.stop_instance; rewrite Hh; reflexivity).
  assert (forall id, VastService.destroy_instance settings provider id w = (false, w))
    as Hdestroy
    by (intros id; unfold VastService.destroy_instance; rewrite Hh; reflexivity).
  split; [|split; [apply Hstop|split; [apply Hdestroy|]]].
  - unfold VastService.ensure_gpu_instance, VastService._is_instance_running,
      VastService.get_active_instance_id.
    rewrite Hh. destruct (VastService.active_instance_id w) as [id|];
      [destruct (truthy_str _)|]; simpl; rewrite ?Hh; reflexivity.
  - unfold VastService.maybe_shutdown_gpu.
    destruct (VastService.get_active_instance_id w) as [id|]; [|reflexivity].
    destruct (negb _); [reflexivity|]. destruct (_ <? _); [reflexivity|].
    rewrite Hstop, Hdestroy. destruct (String.eqb _ _); reflexivity.
Qed.

Lemma no_api_key_no_request_witness :
  VastService.ensure_gpu_instance MoreSamples.no_key Samples.all_running
    MoreSamples.fleet_X = (None, MoreSamples.fleet_X)
  /\ VastService.stop_instance MoreSamples.no_key Samples.all_running "X"
       MoreSamples.fleet_X = (false, MoreSamples.fleet_X)
  /\ VastService.destroy_instance MoreSamples.no_key Samples.all_running "X"
       MoreSamples.fleet_X = (false, MoreSamples.fleet_X)
  /\ VastService.maybe_shutdown_gpu MoreSamples.no_key Samples.all_running
       100000 MoreSamples.fleet_X = (tt, MoreSamples.fleet_X).
Proof.
  apply (no_api_key_no_request MoreSamples.no_key Samples.all_running
           100000 "X" MoreSamples.fleet_X).
  reflexivity.
Defined.

Section FleetRequests.

Import VastService.

(** The requests of a status check: none or the one GET. *)
Lemma _is_instance_running_calls settings provider instance_id (w : World) :
  exists extra,
    calls (snd (_is_instance_running settings provider instance_id w))
    = calls w ++ extra
    /\ (extra = [] \/ extra = [GetInstance instance_id]).
Proof.
  unfold _is_instance_running, request.
  destruct (_headers settings);
    [|exists []; rewrite app_nil_r; auto].
  exists [GetInstance instance_id]. split; [|auto].
  destruct (provider _) as [|code body]; [reflexivity|].
  destruct (negb _); [reflexivity|]. destruct body; reflexivity.
Qed.

(** The requests of [ensure_gpu_instance]: the status check's, then at
    most one creation. *)
Lemma ensure_gpu_instance_calls settings provider (w : World) :
  exists checks creations,
    calls (snd (ensure_gpu_instance settings provider w))
    = calls w ++ checks ++ creations
    /\ (checks = []
        \/ exists id, active_instance_id w = Some id /\ checks = [GetInstance id])
    /\ (creations = [] \/ creations = [create_call settings]).
Proof.
  unfold ensure_gpu_instance, get_active_instance_id.
  set (chk := match active_instance_id w with
              | Some id =>
                  if truthy_str (active_instance_id w)
                  then _is_instance_running settings provider id w
                  else (false, w)
              | None => (false, w)
              end).
  assert (exists checks,
            calls (snd chk) = calls w ++ checks
            /\ (checks = []
                \/ exists id, active_instance_id w = Some id
                              /\ checks = [GetInstance id])) as Hchk.
  { unfold chk. destruct (active_instance_id w) as [id|] eqn:E;
      [|exists []; rewrite app_nil_r; auto].
    destruct (truthy_str _); [|exists []; rewrite app_nil_r; auto].
    destruct (_is_instance_running_calls settings provider id w)
      as (extra & Hcalls & [->| ->]).
    - exists []. auto.
    - exists [GetInstance id]. split; [exact Hcalls|]. right. eauto. }
  destruct Hchk as (checks & Hcalls & Hchecks). exists checks.
  destruct chk as [running w1]. simpl in Hcalls.
  assert (calls w1 = calls w ++ checks ++ []) as Hnone
    by (rewrite app_nil_r; exact Hcalls).
  destruct running; [exists []; auto|].
  destruct (_headers settings); [|exists []; auto].
  unfold request. fold (create_call settings).
  assert (calls w1 ++ [create_call settings]
          = calls w ++ checks ++ [create_call settings]) as Hone
    by (rewrite Hcalls, <- app_assoc; reflexivity).
  exists [create_call settings].
  destruct (provider (create_call settings)) as [|code body]; [simpl; auto|].
  destruct (raise_for_status code); [simpl; auto|].
  destruct body as [data|]; [|simpl; auto].
  destruct (String.eqb _ EmptyString); [simpl; auto|].
  unfold set_active_instance_id. destruct (truthy_str _); simpl; auto.
Qed.

End FleetRequests.

(** X19. What [ensure_gpu_instance] returns is on record: when it
    returns an id, that id is the recorded instance after the call, and
    when it returns [None] the record is as it was before the call.  It
    makes at most one status request, about the instance that was on
    record, and after it at most one creation request. *)
Theorem ensure_returns_the_recorded_instance
    (settings : VastService.Settings) (provider : VastService.Provider)
    (w : VastService.World) :
  let r := VastService.ensure_gpu_instance settings provider w in
  (forall instance_id,
     fst r = Some instance_id ->
     VastService.active_instance_id (snd r) = Some instance_id)
  /\ (fst r = None ->
      VastService.active_instance_id (snd r) = VastService.active_instance_id w)
  /\ exists checks creations,
       VastService.calls (snd r) = VastService.calls w ++ checks ++ creations
       /\ (checks = []
           \/ exists id, VastService.active_instance_id w = Some id
                         /\ checks = [VastService.GetInstance id])
       /\ (creations = [] \/ creations = [VastService.create_call settings]).
Proof.
  cbv zeta. split; [|split].
  - intros instance_id Hret.
    destruct (ensure_gpu_instance_world settings provider w)
      as [[Hsame [Hn|Hold]]|(code & data & _ & _ & _ & Hnew & Hrec)];
      cbv zeta in *; congruence.
  - intros Hret.
    destruct (ensure_gpu_instance_world settings provider w)
      as [[Hsame _]|(code & data & _ & _ & _ & Hnew & _)];
      cbv zeta in *; congruence.
  - apply ensure_gpu_instance_calls.
Qed.

(** X20. The id of a created instance.  When the provider's answer to
    the creation, a 2xx, carries neither ["id"] nor ["instance_id"],
    [ensure_gpu_instance] records and returns the string "None"; the
    guard against a missing id stops it only when the id it reads is the
    empty string, in which case it returns [None] and records nothing. *)
Theorem created_instance_without_id
    (settings : VastService.Settings) (provider : VastService.Provider)
    (w : VastService.World) (status_code : Z) (data : Json) :
  VastService.active_instance_id w = None ->
  VastService.VAST_AI_API_KEY settings <> EmptyString ->
  provider (VastService.create_call settings)
    = VastService.Answered status_code (Some data) ->
  VastService.raise_for_status status_code = false ->
  data !! "id"%string = None ->
  (data !! "instance_id"%string = None ->
   VastService.ensure_gpu_instance settings provider w
   = (Some "None"%string,
      VastService.mkWorld (Some "None"%string)
        (VastService.calls w ++ [VastService.create_call settings])))
  /\ (data !! "instance_id"%string = Some EmptyString ->
      VastService.ensure_gpu_instance settings provider w
      = (None,
         VastService.mkWorld None
           (VastService.calls w ++ [VastService.create_call settings]))).
Proof.
  intros Hactive Hkey Hreply Hcode Hid.
  unfold VastService.ensure_gpu_instance, VastService.get_active_instance_id.
  rewrite Hactive, (_headers_some _ Hkey). unfold VastService.request.
  fold (VastService.create_call settings). rewrite Hreply, Hcode, Hid, Hactive.
  split; intros ->; reflexivity.
Qed.

Lemma created_instance_without_id_witness :
  VastService.ensure_gpu_instance Samples.settings MoreSamples.no_id
    (VastService.mkWorld None [])
  = (Some "None"%string,
     VastService.mkWorld (Some "None"%string)
       ([] ++ [VastService.create_call Samples.settings]))
  /\ VastService.ensure_gpu_instance Samples.settings MoreSamples.empty_id
       (VastService.mkWorld None [])
     = (None,
        VastService.mkWorld None
          ([] ++ [VastService.create_call Samples.settings])).
Proof.
  split.
  - apply (created_instance_without_id Samples.settings MoreSamples.no_id
             (VastService.mkWorld None []) 200 {["status" := "created"]});
      first [discriminate | vm_compute; reflexivity].
  - apply (created_instance_without_id Samples.settings MoreSamples.empty_id
             (VastService.mkWorld None []) 201
             {["instance_id" := EmptyString]});
      first [discriminate | vm_compute; reflexivity].
Defined.

(** X21. The status check.  [_is_instance_running] returns [True]
    exactly when the API key is set, the provider answers 200 with a JSON
    object, and "run" occurs in the lower-cased ["state"] of that object,
    or in its ["status"] when the state is absent or empty.  It never
    changes the recorded instance. *)
Theorem status_check_is_true_exactly_when_healthy
    (settings : VastService.Settings) (provider : VastService.Provider)
    (instance_id : string) (w : VastService.World) :
  let r := VastService._is_instance_running settings provider instance_id w in
  (fst r = true <-> VastService.healthy settings provider instance_id)
  /\ VastService.active_instance_id (snd r) = VastService.active_instance_id w.
Proof.
  cbv zeta. split; [|apply _is_instance_running_world]. split.
  - unfold VastService._is_instance_running, VastService.request,
      VastService.healthy, VastService._headers.
    destruct (String.eqb_spec (VastService.VAST_AI_API_KEY settings) EmptyString)
      as [Hk|Hk]; [discriminate|].
    destruct (provider _) as [|code body]; [discriminate|].
    destruct (Z.eqb_spec code 200) as [->|Hcode]; simpl; [|discriminate].
    destruct body as [data|]; [|discriminate]. simpl.
    intros Hrun. split; [exact Hk|]. exists data. split; [reflexivity|].
    exact Hrun.
  - intros Hhealthy.
    rewrite (_is_instance_running_healthy _ _ _ w Hhealthy). reflexivity.
Qed.

(** ** [create_job] *)

Section CreateJob.

(** The payloads [create_job] provisions for. *)
Lemma payload_target_gpu (payload : Json) :
  JobsRouter.payload_target payload = "gpu"%string <->
  payload !! "target"%string = Some "gpu"%string
  \/ ((payload !! "target"%string = None
       \/ payload !! "target"%string = Some EmptyString)
      /\ payload !! "worker_target"%string = Some "gpu"%string).
Proof.
  unfold JobsRouter.payload_target, VastService.py_or.
  destruct (payload !! "target"%string) as [[|c t]|];
    destruct (payload !! "worker_target"%string) as [[|c' wt]|];
    simpl; intuition congruence.
Qed.

End CreateJob.

(** X22. [create_job] answers 500 "Failed to create job" to every
    request that reaches it: the 501 its stub raises is caught by its own
    handler.  On
    the way it calls [ensure_gpu_instance] exactly when the payload's
    ["target"] is "gpu", or is absent or empty while ["worker_target"] is
    "gpu"; for every other payload the fleet is not touched. *)
Theorem create_job_answers_500_and_provisions_for_gpu
    (settings : VastService.Settings) (provider : VastService.Provider)
    (payload_json : Json) (w : VastService.World) :
  let r := JobsRouter.create_job settings provider payload_json w in
  let wants_gpu :=
    payload_json !! "target"%string = Some "gpu"%string
    \/ ((payload_json !! "target"%string = None
         \/ payload_json !! "target"%string = Some EmptyString)
        /\ payload_json !! "worker_target"%string = Some "gpu"%string) in
  fst r = Workers.HTTPException 500 "Failed to create job"
  /\ (wants_gpu ->
      snd r = snd (VastService.ensure_gpu_instance settings provider w))
  /\ (~ wants_gpu -> snd r = w).
Proof.
  cbv zeta. unfold JobsRouter.create_job, JobsRouter.create_job_try.
  split; [reflexivity|].
  pose proof (payload_target_gpu payload_json) as Hgpu.
  destruct (String.eqb_spec (JobsRouter.payload_target payload_json) "gpu")
    as [Heq|Hne]; simpl; split; intros H; try reflexivity.
  - exfalso. apply H, Hgpu, Heq.
  - exfalso. apply Hne, Hgpu, H.
Qed.

Lemma create_job_answers_500_and_provisions_for_gpu_witness :
  let r := JobsRouter.create_job Samples.settings Samples.all_running
             MoreSamples.gpu_payload (VastService.mkWorld None []) in
  (MoreSamples.gpu_payload !! "target"%string = Some "gpu"%string
   \/ ((MoreSamples.gpu_payload !! "target"%string = None
        \/ MoreSamples.gpu_payload !! "target"%string = Some EmptyString)
       /\ MoreSamples.gpu_payload !! "worker_target"%string = Some "gpu"%string))
  /\ snd r = snd (VastService.ensure_gpu_instance Samples.settings
                    Samples.all_running (VastService.mkWorld None [])).
Proof.
  assert (MoreSamples.gpu_payload !! "target"%string = Some "gpu"%string
          \/ ((MoreSamples.gpu_payload !! "target"%string = None
               \/ MoreSamples.gpu_payload !! "target"%string = Some EmptyString)
              /\ MoreSamples.gpu_payload !! "worker_target"%string
                 = Some "gpu"%string)) as H
    by (right; split; [left|]; vm_compute; reflexivity).
  split; [exact H|].
  exact (proj1 (proj2 (create_job_answers_500_and_provisions_for_gpu
                         Samples.settings Samples.all_running
                         MoreSamples.gpu_payload (VastService.mkWorld None [])))
           H).
Defined.

(** ** The worker: [process_job] *)

Section Worker.

Import Executor.

(** [process_job], by the pipeline of the job and what the pipeline and
    the store do. *)
Lemma process_job_generate (env : Env) (job : ClaimedJob) (t : list Event) :
  kind job = "generate_image"%string ->
  process_job env job t
  = match pipeline env (mode_of job) with
    | None =>
        (Returns tt,
         t ++ [PostFail (id job) ("Unknown mode: " ++ mode_of job)%string])
    | Some gen =>
        match gen (payload_json job) with
        | Raises msg => (Returns tt, t ++ [PostFail (id job) msg])
        | Returns png =>
            match put_object env (output_key job) png with
            | Raises msg =>
                (Returns tt,
                 t ++ [PutObject (output_key job) png; PostFail (id job) msg])
            | Returns _ =>
                (Returns tt,
                 t ++ [PutObject (output_key job) png;
                       PostDone (id job) {["object_key"%string := output_key job]}])
            end
        end
    end.
Proof.
  intros Hkind.
  cbv [process_job try_except bind call raise upload_bytes update_done
       update_fail emit ret pipeline].
  rewrite Hkind.
  change (String.eqb "generate_image" "generate_image") with true.
  cbv beta iota zeta.
  fold (mode_of job). fold (output_key job).
  destruct (String.eqb (mode_of job) "txt2img");
    [|destruct (String.eqb (mode_of job) "img2img");
      [|destruct (String.eqb (mode_of job) "inpaint")]];
    cbv beta iota; try reflexivity;
    (match goal with
     | |- context [?g env (payload_json job)] =>
         destruct (g env (payload_json job)) as [png|msg]
     end; [|reflexivity];
     destruct (put_object env (output_key job) png) as [u|msg];
     cbv beta iota; rewrite <- app_assoc; reflexivity).
Qed.

Lemma process_job_other (env : Env) (job : ClaimedJob) (t : list Event) :
  kind job <> "generate_image"%string ->
  process_job env job t
  = (Returns tt,
     t ++ [PostFail (id job)
             (if String.eqb (kind job) "train_lora"
              then "LoRA training not yet implemented"
              else "Unsupported job kind: " ++ kind job)%string]).
Proof.
  intros Hkind.
  unfold process_job, try_except, bind, call, raise, update_fail, emit.
  destruct (String.eqb_spec (kind job) "generate_image"); [contradiction|].
  destruct (String.eqb (kind job) "train_lora"); reflexivity.
Qed.

End Worker.

(** X23. [process_job] does not raise, whatever the pipelines and the
    object store do, and sends exactly one report about the job it was
    given: a fail report, or the done report that names the key
    [outputs/u<user_id>/<id>.png]. *)
Theorem process_job_reports_exactly_once
    (env : Executor.Env) (job : Executor.ClaimedJob) (t : list Executor.Event) :
  exists t',
    Executor.process_job env job t = (Executor.Returns tt, t ++ t')
    /\ ((exists msg,
           Executor.posts t' = [Executor.PostFail (Executor.id job) msg])
        \/ Executor.posts t'
           = [Executor.PostDone (Executor.id job)
                {["object_key"%string := Executor.output_key job]}]).
Proof.
  destruct (decide (Executor.kind job = "generate_image"%string)) as [Hk|Hk].
  - rewrite (process_job_generate env job t Hk).
    destruct (Executor.pipeline env (Executor.mode_of job)) as [gen|];
      [|eexists; split; [reflexivity|left; eexists; reflexivity]].
    destruct (gen (Executor.payload_json job)) as [png|msg];
      [|eexists; split; [reflexivity|left; eexists; reflexivity]].
    destruct (Executor.put_object env _ png) as [u|msg];
      eexists; (split; [reflexivity|]).
    + right. reflexivity.
    + left. eexists. reflexivity.
  - rewrite (process_job_other env job t Hk).
    eexists. split; [reflexivity|]. left. eexists. reflexivity.
Qed.

(** X24. The done report.  For a job of kind "generate_image" whose mode
    (txt2img when the payload names none) has a pipeline, when the
    pipeline returns an image and the store accepts it, the worker uploads
    the image under [outputs/u<user_id>/<id>.png] and then reports the job
    done with that key as ["object_key"]; it does nothing else. *)
Theorem process_job_uploads_then_reports_done
    (env : Executor.Env) (job : Executor.ClaimedJob) (t : list Executor.Event)
    (gen : Json -> Executor.Outcome string) (png : string) :
  Executor.kind job = "generate_image"%string ->
  Executor.pipeline env (Executor.mode_of job) = Some gen ->
  gen (Executor.payload_json job) = Executor.Returns png ->
  Executor.put_object env (Executor.output_key job) png = Executor.Returns tt ->
  Executor.process_job env job t
  = (Executor.Returns tt,
     t ++ [Executor.PutObject (Executor.output_key job) png;
           Executor.PostDone (Executor.id job)
             {["object_key"%string := Executor.output_key job]}]).
Proof.
  intros Hk Hp Hg Hput.
  rewrite (process_job_generate env job t Hk), Hp, Hg, Hput. reflexivity.
Qed.

Lemma process_job_uploads_then_reports_done_witness :
  Executor.process_job MoreSamples.working_env MoreSamples.claimed_A []
  = (Executor.Returns tt,
     [] ++ [Executor.PutObject (Executor.output_key MoreSamples.claimed_A) "png";
            Executor.PostDone (Executor.id MoreSamples.claimed_A)
              {["object_key"%string :=
                  Executor.output_key MoreSamples.claimed_A]}])
  /\ Executor.output_key MoreSamples.claimed_A = "outputs/u7/1.png"%string.
Proof.
  split.
  - apply (process_job_uploads_then_reports_done MoreSamples.working_env
             MoreSamples.claimed_A []
             (Executor.gen_txt2img MoreSamples.working_env) "png");
      reflexivity.
  - vm_compute. reflexivity.
Defined.

(** X25. The fail report.  Every way a job can go wrong ends in one fail
    report that carries the message of the error: an unknown mode
    ("Unknown mode: <mode>"), a pipeline that raises, an upload that
    raises (after the attempt to upload), a job of kind "train_lora"
    ("LoRA training not yet implemented"), and a job of any other kind
    ("Unsupported job kind: <kind>"); for the last two no pipeline is run
    and nothing is uploaded. *)
Theorem process_job_reports_each_failure
    (env : Executor.Env) (job : Executor.ClaimedJob) (t : list Executor.Event) :
  (Executor.kind job = "generate_image"%string ->
   Executor.pipeline env (Executor.mode_of job) = None ->
   Executor.process_job env job t
   = (Executor.Returns tt,
      t ++ [Executor.PostFail (Executor.id job)
              ("Unknown mode: " ++ Executor.mode_of job)%string]))
  /\ (forall gen msg,
        Executor.kind job = "generate_image"%string ->
        Executor.pipeline env (Executor.mode_of job) = Some gen ->
        gen (Executor.payload_json job) = Executor.Raises msg ->
        Executor.process_job env job t
        = (Executor.Returns tt, t ++ [Executor.PostFail (Executor.id job) msg]))
  /\ (forall gen png msg,
        Executor.kind job = "generate_image"%string ->
        Executor.pipeline env (Executor.mode_of job) = Some gen ->
        gen (Executor.payload_json job) = Executor.Returns png ->
        Executor.put_object env (Executor.output_key job) png
          = Executor.Raises msg ->
        Executor.process_job env job t
        = (Executor.Returns tt,
           t ++ [Executor.PutObject (Executor.output_key job) png;
                 Executor.PostFail (Executor.id job) msg]))
  /\ (Executor.kind job = "train_lora"%string ->
      Executor.process_job env job t
      = (Executor.Returns tt,
         t ++ [Executor.PostFail (Executor.id job)
                 "LoRA training not yet implemented"]))
  /\ (Executor.kind job <> "generate_image"%string ->
      Executor.kind job <> "train_lora"%string ->
      Executor.process_job env job t
      = (Executor.Returns tt,
         t ++ [Executor.PostFail (Executor.id job)
                 ("Unsupported job kind: " ++ Executor.kind job)%string])).
Proof.
  split; [|split; [|split; [|split]]].
  - intros Hk Hp. rewrite (process_job_generate env job t Hk), Hp. reflexivity.
  - intros gen msg Hk Hp Hg.
    rewrite (process_job_generate env job t Hk), Hp, Hg. reflexivity.
  - intros gen png msg Hk Hp Hg Hput.
    rewrite (process_job_generate env job t Hk), Hp, Hg, Hput. reflexivity.
  - intros Hk. rewrite process_job_other by (rewrite Hk; discriminate).
    rewrite Hk. reflexivity.
  - intros Hk Hl. rewrite (process_job_other env job t Hk).
    destruct (String.eqb_spec (Executor.kind job) "train_lora");
      [contradiction|reflexivity].
Qed.

Lemma process_job_reports_each_failure_witness :
  let job := Executor.mkClaimedJob 3 7 "train_lora" ∅ in
  Executor.process_job MoreSamples.working_env job []
  = (Executor.Returns tt,
     [] ++ [Executor.PostFail 3 "LoRA training not yet implemented"]).
Proof.
  exact (proj1 (proj2 (proj2 (proj2 (process_job_reports_each_failure
           MoreSamples.working_env (Executor.mkClaimedJob 3 7 "train_lora" ∅) []))))
         eq_refl).
Defined.
